(** * Group Fitness App: session lifecycle and screen flow

    A shallow embedding of the browser client: the API service
    (services/api), the authentication provider (contexts/AuthContext),
    the application shell (App.tsx) and the sign-up and onboarding forms.

    Every [async] function runs to completion before the next one starts
    (no interleaving of two handlers); an [await] is a sequencing point.
    All state changes go through events, so that the state a caller could
    observe between two steps of a handler is the replay of a prefix of the
    handler's events.

    The environment: [localStorage] is a finite map from strings to strings
    whose operations do not throw; the backend and the network are a
    function from the history and the request to the outcome of [fetch];
    a state update of React is visible as soon as it is made. *)

From Stdlib Require Import Floats.
From stdpp Require Import base strings gmap list pretty.

(** ** JavaScript values *)

(** Thrown values.  Everything the modelled code throws or receives from
    [fetch] and [Response.json] is an instance of [Error], so
    [error instanceof Error] holds for each of them. *)
Inductive JsError :=
| Error (msg : string)
| TypeError (msg : string)
| SyntaxError (msg : string).

Definition message (e : JsError) : string :=
  match e with Error m | TypeError m | SyntaxError m => m end.

(** A JavaScript [number] is a binary64 float. *)
Definition number := float.

(** Truthiness of a string and of a number: [""], [0], [-0] and [NaN] are
    falsy.  A string is the sequence of its code units, so [String.length]
    is the [.length] of the strings this alphabet can express. *)
Definition truthy (s : string) : bool :=
  match s with EmptyString => false | String _ _ => true end.

Definition truthy_number (x : number) : bool :=
  negb (PrimFloat.is_zero x || PrimFloat.is_nan x).

(** [s || undefined] and [x || undefined]. *)
Definition or_undefined (s : string) : option string :=
  if truthy s then Some s else None.

Definition number_or_undefined (x : option number) : option number :=
  match x with
  | Some v => if truthy_number v then Some v else None
  | None => None
  end.

(** Completion of a call: a value, or a thrown error (a rejected promise
    for an [async] function). *)
Inductive Completion (A : Type) :=
| Return (a : A)
| Throw (e : JsError).
Arguments Return {A} a.
Arguments Throw {A} e.

(** ** Wire types (services/api) *)

Record AuthResponse := {
  access_token : string;
  refresh_token : string;
  token_type : string;
  expires_in : number }.

Record UserInfo := {
  user_id : string;
  user_email : string;
  user_name : option string }.

(** The members of [Partial<UserProfile>] and [Partial<UserPreferences>]
    that the onboarding form fills in. *)
Record PartialUserProfile := {
  profile_name : option string;
  profile_bio : option string;
  profile_location_name : option string;
  profile_location_lat : option number;
  profile_location_lng : option number }.

Record PartialUserPreferences := {
  preferred_pace : option string }.

(** One constructor per request the client sends.  [authorization] is the
    value of the [Authorization] header, when there is one. *)
Inductive Request :=
| POST_auth_signup (email password : string) (name : option string)
| POST_auth_confirm_signup (email confirmation_code : string)
| POST_auth_signin (email password : string)
| GET_auth_me (authorization : option string)
| POST_auth_refresh (refreshToken : string)
| POST_users_profile_auto_create (authorization : option string)
| GET_users_profile (authorization : option string)
| POST_users_onboarding (authorization : option string)
    (profile : PartialUserProfile) (preferences : PartialUserPreferences).

(** The declared TypeScript type of the parsed body of each request;
    [Promise<any>] and bodies the client never inspects are [unit]. *)
Definition body_of (r : Request) : Type :=
  match r with
  | POST_auth_signin _ _ | POST_auth_refresh _ => AuthResponse
  | GET_auth_me _ => UserInfo
  | _ => unit
  end.

(** What [handleResponse] reads of a [Response]: the status, the outcome of
    [response.json()], and what [errorData.detail] evaluates to for
    [errorData = await response.json().catch(() => ({}))]: the member, when
    the body has one; nothing, when it has none or is not JSON; a
    [TypeError], when the body is the JSON value [null].  A [detail] that
    is not a string stands here as the string [new Error] turns it into. *)
Record Response (T : Type) := {
  status : nat;
  detail : Completion (option string);
  json : Completion T }.
Arguments status {T} _.
Arguments detail {T} _.
Arguments json {T} _.

Definition ok {T} (response : Response T) : bool :=
  (200 <=? status response) && (status response <=? 299).

Inductive FetchOutcome (T : Type) :=
| Rejected (e : JsError)
| Resolved (response : Response T).
Arguments Rejected {T} e.
Arguments Resolved {T} response.

(** ** State and events *)

(** Timer callbacks registered with [setTimeout]. *)
Inductive Callback :=
| Call_onSignUpSuccess (email : string).

(** [useState] cells of [AuthProvider]. *)
Record AuthState := {
  user : option UserInfo;
  isLoading : bool }.

(** [useState] cells of [AppContent]. *)
Record FlowState := {
  showSignUp : bool;
  showOnboarding : bool;
  hasProfile : bool;
  showConfirmEmail : bool;
  signUpEmail : string }.

(** The cells a form's submit handler writes: [error], [success] and
    [isLoading] (the onboarding form has no [success] cell and never
    writes it). *)
Record FormState := {
  form_error : string;
  form_success : string;
  form_isLoading : bool }.

Record State := {
  localStorage : gmap string string;
  auth : AuthState;
  flow : FlowState;
  signUpForm : FormState;
  onboardingForm : FormState }.

Inductive Form := TheSignUpForm | TheOnboardingForm.

Inductive event :=
| Fetch (r : Request)
| SetItem (key value : string)
| RemoveItem (key : string)
| ConsoleError (label : string) (e : JsError)
| SetUser (u : option UserInfo)
| SetIsLoading (b : bool)
| SetShowSignUp (b : bool)
| SetShowOnboarding (b : bool)
| SetHasProfile (b : bool)
| SetShowConfirmEmail (b : bool)
| SetSignUpEmail (s : string)
| SetError (f : Form) (s : string)
| SetSuccess (f : Form) (s : string)
| SetFormLoading (f : Form) (b : bool)
| SetTimeout (cb : Callback) (ms : nat).

Definition with_localStorage (f : gmap string string -> gmap string string)
    (s : State) : State :=
  {| localStorage := f (localStorage s); auth := auth s; flow := flow s;
     signUpForm := signUpForm s; onboardingForm := onboardingForm s |}.

Definition with_auth (f : AuthState -> AuthState) (s : State) : State :=
  {| localStorage := localStorage s; auth := f (auth s); flow := flow s;
     signUpForm := signUpForm s; onboardingForm := onboardingForm s |}.

Definition with_flow (f : FlowState -> FlowState) (s : State) : State :=
  {| localStorage := localStorage s; auth := auth s; flow := f (flow s);
     signUpForm := signUpForm s; onboardingForm := onboardingForm s |}.

Definition with_form (which : Form) (f : FormState -> FormState)
    (s : State) : State :=
  match which with
  | TheSignUpForm =>
      {| localStorage := localStorage s; auth := auth s; flow := flow s;
         signUpForm := f (signUpForm s); onboardingForm := onboardingForm s |}
  | TheOnboardingForm =>
      {| localStorage := localStorage s; auth := auth s; flow := flow s;
         signUpForm := signUpForm s; onboardingForm := f (onboardingForm s) |}
  end.

(** The effect of one event on the state.  Requests, console output and
    timer registrations leave it unchanged. *)
Definition apply_event (s : State) (ev : event) : State :=
  match ev with
  | Fetch _ | ConsoleError _ _ | SetTimeout _ _ => s
  | SetItem k v => with_localStorage (fun m => <[k := v]> m) s
  | RemoveItem k => with_localStorage (fun m => delete k m) s
  | SetUser u =>
      with_auth (fun a => {| user := u; isLoading := isLoading a |}) s
  | SetIsLoading b =>
      with_auth (fun a => {| user := user a; isLoading := b |}) s
  | SetShowSignUp b =>
      with_flow (fun f => {| showSignUp := b;
        showOnboarding := showOnboarding f; hasProfile := hasProfile f;
        showConfirmEmail := showConfirmEmail f;
        signUpEmail := signUpEmail f |}) s
  | SetShowOnboarding b =>
      with_flow (fun f => {| showSignUp := showSignUp f;
        showOnboarding := b; hasProfile := hasProfile f;
        showConfirmEmail := showConfirmEmail f;
        signUpEmail := signUpEmail f |}) s
  | SetHasProfile b =>
      with_flow (fun f => {| showSignUp := showSignUp f;
        showOnboarding := showOnboarding f; hasProfile := b;
        showConfirmEmail := showConfirmEmail f;
        signUpEmail := signUpEmail f |}) s
  | SetShowConfirmEmail b =>
      with_flow (fun f => {| showSignUp := showSignUp f;
        showOnboarding := showOnboarding f; hasProfile := hasProfile f;
        showConfirmEmail := b; signUpEmail := signUpEmail f |}) s
  | SetSignUpEmail e =>
      with_flow (fun f => {| showSignUp := showSignUp f;
        showOnboarding := showOnboarding f; hasProfile := hasProfile f;
        showConfirmEmail := showConfirmEmail f; signUpEmail := e |}) s
  | SetError w e =>
      with_form w (fun f => {| form_error := e;
        form_success := form_success f;
        form_isLoading := form_isLoading f |}) s
  | SetSuccess w m =>
      with_form w (fun f => {| form_error := form_error f;
        form_success := m; form_isLoading := form_isLoading f |}) s
  | SetFormLoading w b =>
      with_form w (fun f => {| form_error := form_error f;
        form_success := form_success f; form_isLoading := b |}) s
  end.

(** The state after a sequence of events. *)
Definition replay (s : State) (evs : list event) : State :=
  fold_left apply_event evs s.

(** The client together with the history of what it did. *)
Record World := {
  state : State;
  trace : list event }.

(** The backend (and the network in front of it): the outcome of a request,
    which may depend on everything that happened before it. *)
Definition Backend : Type :=
  list event -> forall r : Request, FetchOutcome (body_of r).

(** ** The monad of handlers *)

Definition M (A : Type) : Type := World -> Completion A * World.

Definition ret {A} (a : A) : M A := fun w => (Return a, w).

Definition bind {A B} (c : M A) (k : A -> M B) : M B :=
  fun w =>
    match c w with
    | (Return a, w') => k a w'
    | (Throw e, w') => (Throw e, w')
    end.

Definition throw {A} (e : JsError) : M A := fun w => (Throw e, w).

(** [try { body } catch (error) { handler }] *)
Definition try_catch {A} (body : M A) (handler : JsError -> M A) : M A :=
  fun w =>
    match body w with
    | (Return a, w') => (Return a, w')
    | (Throw e, w') => handler e w'
    end.

(** [try { body } finally { fin }]: [fin] always runs; if it throws, its
    error replaces the completion of [body]. *)
Definition try_finally {A} (body : M A) (fin : M unit) : M A :=
  fun w =>
    match body w with
    | (r, w') =>
        match fin w' with
        | (Return _, w'') => (r, w'')
        | (Throw e, w'') => (Throw e, w'')
        end
    end.

Declare Scope js_scope.
Delimit Scope js_scope with js.
Notation "x ← y ; z" := (bind y (fun x => z)) (only parsing) : js_scope.
Notation "x ;; z" := (bind x (fun _ => z)) (only parsing) : js_scope.
Open Scope js_scope.

(** Record the event and apply it. *)
Definition emit (ev : event) : M unit :=
  fun w =>
    (Return tt,
     {| state := apply_event (state w) ev; trace := trace w ++ [ev] |}).

Definition get_state : M State := fun w => (Return (state w), w).

(** [await promise] for the promise [response.json()]. *)
Definition await {A} (c : Completion A) : M A :=
  match c with Return a => ret a | Throw e => throw e end.

Definition localStorage_getItem (key : string) : M (option string) :=
  s ← get_state; ret (localStorage s !! key).
Definition localStorage_setItem (key value : string) : M unit :=
  emit (SetItem key value).
Definition localStorage_removeItem (key : string) : M unit :=
  emit (RemoveItem key).
Definition console_error (label : string) (e : JsError) : M unit :=
  emit (ConsoleError label e).

(** ** services/api: [ApiService] *)

Module ApiService.
Section Client.
Variable backend : Backend.

(** [fetch]: the request is recorded, then the promise settles with
    what the backend answers. *)
Definition fetch (r : Request) : M (Response (body_of r)) :=
  fun w =>
    let w' := {| state := state w; trace := trace w ++ [Fetch r] |} in
    match backend (trace w) r with
    | Rejected e => (Throw e, w')
    | Resolved response => (Return response, w')
    end.

(** The [Authorization] header: [token && { Authorization: ... }]. *)
Definition getAuthHeaders : M (option string) :=
  token ← localStorage_getItem "access_token";
  ret (match token with
       | Some t => if truthy t then Some ("Bearer " +:+ t) else None
       | None => None
       end).

Definition handleResponse {T} (response : Response T) : M T :=
  if negb (ok response) then
    (* errorData = await response.json().catch(() => ({})) *)
    errorData_detail ← await (detail response);
    throw (Error
      (match errorData_detail with
       | Some d =>
           if truthy d then d
           else "HTTP error! status: " +:+ pretty (status response)
       | None => "HTTP error! status: " +:+ pretty (status response)
       end))
  else await (json response).

Definition signUp (email password : string) (name : option string)
    : M unit :=
  response ← fetch (POST_auth_signup email password name);
  handleResponse response.

Definition confirmSignUp (email confirmationCode : string) : M unit :=
  response ← fetch (POST_auth_confirm_signup email confirmationCode);
  handleResponse response.

Definition signIn (email password : string) : M AuthResponse :=
  response ← fetch (POST_auth_signin email password);
  handleResponse response.

Definition getCurrentUser : M UserInfo :=
  headers ← getAuthHeaders;
  response ← fetch (GET_auth_me headers);
  handleResponse response.

Definition refreshToken (refreshToken : string) : M AuthResponse :=
  response ← fetch (POST_auth_refresh refreshToken);
  handleResponse response.

Definition autoCreateProfile : M unit :=
  headers ← getAuthHeaders;
  response ← fetch (POST_users_profile_auto_create headers);
  handleResponse response.

Definition getUserProfile : M unit :=
  headers ← getAuthHeaders;
  response ← fetch (GET_users_profile headers);
  handleResponse response.

Definition completeOnboarding (profileData : PartialUserProfile)
    (preferencesData : PartialUserPreferences) : M unit :=
  headers ← getAuthHeaders;
  response ← fetch (POST_users_onboarding headers profileData preferencesData);
  handleResponse response.
End Client.
End ApiService.

(** ** contexts/AuthContext: [AuthProvider] *)

Module AuthProvider.
Section Provider.
Variable backend : Backend.

Definition setUser (u : option UserInfo) : M unit := emit (SetUser u).
Definition setIsLoading (b : bool) : M unit := emit (SetIsLoading b).

(** [isAuthenticated = !!user] *)
Definition isAuthenticated (s : State) : bool :=
  match user (auth s) with Some _ => true | None => false end.

Definition saveTokens (authResponse : AuthResponse) : M unit :=
  localStorage_setItem "access_token" (access_token authResponse);;
  localStorage_setItem "refresh_token" (refresh_token authResponse).

Definition clearTokens : M unit :=
  localStorage_removeItem "access_token";;
  localStorage_removeItem "refresh_token".

Definition signIn (email password : string) : M unit :=
  try_catch
    (authResponse ← ApiService.signIn backend email password;
     saveTokens authResponse;;
     (* Get user info *)
     userInfo ← ApiService.getCurrentUser backend;
     setUser (Some userInfo))
    (fun error =>
       console_error "Sign in error:" error;;
       throw error).

Definition signUp (email password : string) (name : option string)
    : M unit :=
  try_catch
    (ApiService.signUp backend email password name)
    (fun error =>
       console_error "Sign up error:" error;;
       throw error).

Definition signOut : M unit :=
  clearTokens;;
  setUser None.

Definition refreshAuth : M unit :=
  try_catch
    (refreshToken ← localStorage_getItem "refresh_token";
     (* if (!refreshToken) throw ...: [null] and [""] are falsy *)
     token ← match refreshToken with
             | Some t =>
                 if truthy t then ret t
                 else throw (Error "No refresh token available")
             | None => throw (Error "No refresh token available")
             end;
     authResponse ← ApiService.refreshToken backend token;
     saveTokens authResponse;;
     userInfo ← ApiService.getCurrentUser backend;
     setUser (Some userInfo))
    (fun error =>
       console_error "Token refresh error:" error;;
       signOut).

(** The mount effect. *)
Definition initializeAuth : M unit :=
  try_finally
    (try_catch
       (token ← localStorage_getItem "access_token";
        match token with
        | Some t =>
            if truthy t then
              userInfo ← ApiService.getCurrentUser backend;
              setUser (Some userInfo)
            else ret tt
        | None => ret tt
        end)
       (fun error =>
          console_error "Auth initialization error:" error;;
          (* Try to refresh token *)
          try_catch
            refreshAuth
            (fun refreshError =>
               console_error "Token refresh failed:" refreshError;;
               signOut)))
    (setIsLoading false).
End Provider.
End AuthProvider.

(** ** App.tsx: [AppContent] *)

Module App.

Inductive Screen :=
| Loading | ConfirmEmail | SignIn | SignUp | WelcomeGate | Onboarding | Main.

(** A block of statements each of which may [return] a screen: the first
    one that returns decides; [None] is falling off the end. *)
Fixpoint first_return (stmts : list (option Screen)) : option Screen :=
  match stmts with
  | [] => None
  | Some s :: _ => Some s
  | None :: rest => first_return rest
  end.

(** The render body of [AppContent], as a function of the values it
    branches on. *)
Definition render (isLoading isAuthenticated hasProfile showSignUp
    showConfirmEmail showOnboarding : bool) : option Screen :=
  first_return [
    (if isLoading then Some Loading else None);
    (if negb isAuthenticated then
       first_return [
         (if showConfirmEmail then Some ConfirmEmail else None);
         Some (if showSignUp then SignUp else SignIn) ]
     else None);
    (if isAuthenticated && negb hasProfile && negb showOnboarding
     then Some WelcomeGate else None);
    (if showOnboarding then Some Onboarding else None);
    (* Main app (user is authenticated and has profile) *)
    Some Main ].

Definition AppContent (s : State) : option Screen :=
  render (isLoading (auth s)) (AuthProvider.isAuthenticated s)
    (hasProfile (flow s)) (showSignUp (flow s))
    (showConfirmEmail (flow s)) (showOnboarding (flow s)).

Definition setShowSignUp (b : bool) : M unit := emit (SetShowSignUp b).
Definition setShowOnboarding (b : bool) : M unit :=
  emit (SetShowOnboarding b).
Definition setHasProfile (b : bool) : M unit := emit (SetHasProfile b).
Definition setShowConfirmEmail (b : bool) : M unit :=
  emit (SetShowConfirmEmail b).
Definition setSignUpEmail (s : string) : M unit := emit (SetSignUpEmail s).

(** The values of the [useState] initialisers. *)
Definition initial_flow : FlowState :=
  {| showSignUp := false; showOnboarding := false; hasProfile := false;
     showConfirmEmail := false; signUpEmail := "" |}.

Definition handleOnboardingComplete : M unit :=
  setShowOnboarding false;;
  setHasProfile true.

Definition handleSignOut : M unit :=
  AuthProvider.signOut;;
  setHasProfile false;;
  setShowOnboarding false;;
  setShowConfirmEmail false;;
  setSignUpEmail "".

Definition handleSignUpSuccess (email : string) : M unit :=
  setSignUpEmail email;;
  setShowSignUp false;;
  setShowConfirmEmail true.

Definition handleEmailConfirmed : M unit :=
  setShowConfirmEmail false;;
  setSignUpEmail "".

Definition handleBackToSignUp : M unit :=
  setShowConfirmEmail false;;
  setShowSignUp true.

(** The profile probe run when [isAuthenticated] or [user] changes. *)
Definition checkProfile (backend : Backend) : M unit :=
  s ← get_state;
  if AuthProvider.isAuthenticated s then
    try_catch
      (ApiService.getUserProfile backend;;
       setHasProfile true)
      (fun _ =>
         (* Profile doesn't exist, show onboarding *)
         setHasProfile false)
  else ret tt.

(** A fired timer runs its callback. *)
Definition run_callback (cb : Callback) : M unit :=
  match cb with
  | Call_onSignUpSuccess email => handleSignUpSuccess email
  end.
End App.

(** ** components/auth/SignUpForm *)

Module SignUpForm.
Section Form.
Variable backend : Backend.

Definition setError (s : string) : M unit :=
  emit (SetError TheSignUpForm s).
Definition setSuccess (s : string) : M unit :=
  emit (SetSuccess TheSignUpForm s).
Definition setIsLoading (b : bool) : M unit :=
  emit (SetFormLoading TheSignUpForm b).

(** [handleSubmit] with the field values of the render it closes over. *)
Definition handleSubmit (email password confirmPassword name : string)
    : M unit :=
  setError "";;
  setSuccess "";;
  if negb (String.eqb password confirmPassword) then
    setError "Passwords do not match"
  else if String.length password <? 8 then
    setError "Password must be at least 8 characters long"
  else
    setIsLoading true;;
    try_finally
      (try_catch
         (AuthProvider.signUp backend email password (or_undefined name);;
          setSuccess
            "Account created successfully! Redirecting to email confirmation...";;
          (* Redirect to confirmation step after a short delay *)
          emit (SetTimeout (Call_onSignUpSuccess email) 1500))
         (fun error => setError (message error)))
      (setIsLoading false).
End Form.
End SignUpForm.

(** ** components/onboarding/OnboardingForm *)

Module OnboardingForm.

(** The field cells the submit handler reads. *)
Record Fields := {
  name : string;
  bio : string;
  locationName : string;
  locationLat : option number;
  locationLng : option number;
  preferredPace : string }.

Section Form.
Variable backend : Backend.

Definition setError (s : string) : M unit :=
  emit (SetError TheOnboardingForm s).
Definition setIsLoading (b : bool) : M unit :=
  emit (SetFormLoading TheOnboardingForm b).

Definition handleSubmit (onComplete : M unit) (f : Fields) : M unit :=
  setError "";;
  setIsLoading true;;
  try_finally
    (try_catch
       ((* Auto-create profile first *)
        ApiService.autoCreateProfile backend;;
        (* Complete onboarding *)
        let profileData :=
          {| profile_name := or_undefined (name f);
             profile_bio := or_undefined (bio f);
             profile_location_name := or_undefined (locationName f);
             profile_location_lat := number_or_undefined (locationLat f);
             profile_location_lng := number_or_undefined (locationLng f) |} in
        let preferencesData :=
          {| preferred_pace := or_undefined (preferredPace f) |} in
        ApiService.completeOnboarding backend profileData preferencesData;;
        onComplete)
       (fun error => setError (message error)))
    (setIsLoading false).
End Form.
End OnboardingForm.

(** ** Observations used in the statements *)

(** The Session Store: the two token entries of [localStorage]. *)
Definition readAccessToken (s : State) : option string :=
  localStorage s !! "access_token".
Definition readRefreshToken (s : State) : option string :=
  localStorage s !! "refresh_token".
Definition SessionStore_empty (s : State) : Prop :=
  readAccessToken s = None /\ readRefreshToken s = None.

(** The world after the events [evs] have happened in [w]. *)
Definition after (w : World) (evs : list event) : World :=
  {| state := replay (state w) evs; trace := trace w ++ evs |}.

(** The completion of [handleResponse] on the outcome of a [fetch]. *)
Definition settle {T} (o : FetchOutcome T) : Completion T :=
  match o with
  | Rejected e => Throw e
  | Resolved response =>
      if ok response then json response
      else
        match detail response with
        | Throw e => Throw e
        | Return (Some d) =>
            Throw (Error
              (if truthy d then d
               else "HTTP error! status: " +:+ pretty (status response)))
        | Return None =>
            Throw (Error
              ("HTTP error! status: " +:+ pretty (status response)))
        end
  end.

(** The [Authorization] header sent for a stored access token. *)
Definition bearer (token : option string) : option string :=
  match token with
  | Some t => if truthy t then Some ("Bearer " +:+ t) else None
  | None => None
  end.

Definition is_fetch (ev : event) : bool :=
  match ev with Fetch _ => true | _ => false end.

(** What the [catch] block of [refreshAuth] does with the error [e]
    thrown after the events [evs]: it logs it and signs out. *)
Definition refresh_caught (w : World) (evs : list event) (e : JsError)
    : Completion unit * World :=
  (Return tt,
   after w (evs ++ [ConsoleError "Token refresh error:" e;
                    RemoveItem "access_token"; RemoveItem "refresh_token";
                    SetUser None])).

(** [!!refreshToken] for the stored refresh token. *)
Definition has_refresh_token (s : State) : bool :=
  match readRefreshToken s with
  | Some t => truthy t
  | None => false
  end.

(** The three ways the [try] block of [refreshAuth] can fail in the world
    [w], with the error thrown and the world in which it is thrown. *)
Inductive refresh_failure (backend : Backend) (w : World)
    : JsError -> World -> Prop :=
| missing_refresh_token :
    has_refresh_token (state w) = false ->
    refresh_failure backend w (Error "No refresh token available") w
| refresh_request_fails t e w1 :
    readRefreshToken (state w) = Some t ->
    truthy t = true ->
    ApiService.refreshToken backend t w = (Throw e, w1) ->
    refresh_failure backend w e w1
| identity_fetch_fails t authResponse w1 w2 e w3 :
    readRefreshToken (state w) = Some t ->
    truthy t = true ->
    ApiService.refreshToken backend t w = (Return authResponse, w1) ->
    AuthProvider.saveTokens authResponse w1 = (Return tt, w2) ->
    ApiService.getCurrentUser backend w2 = (Throw e, w3) ->
    refresh_failure backend w e w3.

(** The two payloads [handleSubmit] of the onboarding form builds. *)
Definition profileData (f : OnboardingForm.Fields) : PartialUserProfile :=
  {| profile_name := or_undefined (OnboardingForm.name f);
     profile_bio := or_undefined (OnboardingForm.bio f);
     profile_location_name := or_undefined (OnboardingForm.locationName f);
     profile_location_lat := number_or_undefined (OnboardingForm.locationLat f);
     profile_location_lng := number_or_undefined (OnboardingForm.locationLng f) |}.

Definition preferencesData (f : OnboardingForm.Fields)
    : PartialUserPreferences :=
  {| preferred_pace := or_undefined (OnboardingForm.preferredPace f) |}.

(** The two ways the [try] block of the onboarding submit handler can fail
    before [onComplete], in the world [w0] in which it starts. *)
Inductive onboarding_failure (backend : Backend) (f : OnboardingForm.Fields)
    (w0 : World) : JsError -> Prop :=
| auto_create_fails e w1 :
    ApiService.autoCreateProfile backend w0 = (Throw e, w1) ->
    onboarding_failure backend f w0 e
| combined_write_fails w1 e w2 :
    ApiService.autoCreateProfile backend w0 = (Return tt, w1) ->
    ApiService.completeOnboarding backend (profileData f) (preferencesData f)
      w1 = (Throw e, w2) ->
    onboarding_failure backend f w0 e.

(** ** Scenarios *)

Module Scenario.

Definition respond {T} (code : nat) (d : option string)
    (body : Completion T) : FetchOutcome T :=
  Resolved {| status := code; detail := Return d; json := body |}.

Definition tokens : AuthResponse :=
  {| access_token := "at-1"; refresh_token := "rt-1";
     token_type := "Bearer"; expires_in := 3600%float |}.

Definition alice : UserInfo :=
  {| user_id := "u-1"; user_email := "a@b.com"; user_name := None |}.

Definition not_json {T} : Completion T :=
  Throw (SyntaxError "Unexpected end of JSON input").

(** Every request is answered with success. *)
Definition all_ok : Backend := fun _ r =>
  match r as r0 return FetchOutcome (body_of r0) with
  | POST_auth_signin _ _ => respond 200 None (Return tokens)
  | POST_auth_refresh _ => respond 200 None (Return tokens)
  | GET_auth_me _ => respond 200 None (Return alice)
  | POST_auth_signup _ _ _ => respond 200 None (Return tt)
  | POST_auth_confirm_signup _ _ => respond 200 None (Return tt)
  | POST_users_profile_auto_create _ => respond 200 None (Return tt)
  | GET_users_profile _ => respond 200 None (Return tt)
  | POST_users_onboarding _ _ _ => respond 200 None (Return tt)
  end.

(** Sign-in succeeds, "who am I" answers 401. *)
Definition me_401 : Backend := fun h r =>
  match r as r0 return FetchOutcome (body_of r0) with
  | GET_auth_me _ => respond 401 (Some "Invalid token") not_json
  | r0 => all_ok h r0
  end.

(** The refresh endpoint answers 401. *)
Definition refresh_401 : Backend := fun h r =>
  match r as r0 return FetchOutcome (body_of r0) with
  | POST_auth_refresh _ => respond 401 (Some "Invalid refresh token") not_json
  | r0 => all_ok h r0
  end.

(** Auto-create answers 500 with no structured body. *)
Definition auto_create_500 : Backend := fun h r =>
  match r as r0 return FetchOutcome (body_of r0) with
  | POST_users_profile_auto_create _ => respond 500 None not_json
  | r0 => all_ok h r0
  end.

(** The network is down: every [fetch] rejects. *)
Definition offline : Backend := fun _ r =>
  Rejected (TypeError "Failed to fetch").

Definition no_form : FormState :=
  {| form_error := ""; form_success := ""; form_isLoading := false |}.

(** A client right after start-up with nothing stored. *)
Definition fresh : World :=
  {| state := {| localStorage := ∅;
                 auth := {| user := None; isLoading := false |};
                 flow := App.initial_flow;
                 signUpForm := no_form; onboardingForm := no_form |};
     trace := [] |}.

(** A signed-in client with both tokens stored. *)
Definition signed_in : World :=
  {| state := {| localStorage :=
                   <["refresh_token" := "rt-0"]> (<["access_token" := "at-0"]> ∅);
                 auth := {| user := Some alice; isLoading := false |};
                 flow := {| showSignUp := false; showOnboarding := false;
                            hasProfile := true; showConfirmEmail := false;
                            signUpEmail := "" |};
                 signUpForm := no_form; onboardingForm := no_form |};
     trace := [] |}.

(** A signed-in client whose [showSignUp] cell is set. *)
Definition signed_in_on_signup : World :=
  {| state := with_flow (fun f =>
                {| showSignUp := true; showOnboarding := showOnboarding f;
                   hasProfile := hasProfile f;
                   showConfirmEmail := showConfirmEmail f;
                   signUpEmail := signUpEmail f |}) (state signed_in);
     trace := [] |}.

(** A signed-in client without a profile, on the onboarding form. *)
Definition onboarding : World :=
  {| state := with_flow (fun _ =>
                {| showSignUp := false; showOnboarding := true;
                   hasProfile := false; showConfirmEmail := false;
                   signUpEmail := "" |}) (state signed_in);
     trace := [] |}.

Definition fields : OnboardingForm.Fields :=
  {| OnboardingForm.name := "Alice"; OnboardingForm.bio := "";
     OnboardingForm.locationName := "Toronto";
     OnboardingForm.locationLat := Some 43.5%float;
     OnboardingForm.locationLng := None;
     OnboardingForm.preferredPace := "moderate" |}.
End Scenario.

(** ** Components with cells of their own *)

(** [LoginForm] and [ConfirmEmailForm] keep their [useState] cells to
    themselves.  A handler of such a component threads the cells [S] of
    the component next to the world; the cells survive a thrown error. *)
Module Local.

Definition L (S A : Type) : Type := S -> World -> Completion A * S * World.

Definition lret {S A} (a : A) : L S A := fun s w => (Return a, s, w).

Definition lbind {S A B} (c : L S A) (k : A -> L S B) : L S B :=
  fun s w =>
    match c s w with
    | (Return a, s', w') => k a s' w'
    | (Throw e, s', w') => (Throw e, s', w')
    end.

(** A call into the provider or the API service. *)
Definition lift {S A} (c : M A) : L S A :=
  fun s w => match c w with (r, w') => (r, s, w') end.

(** A [useState] setter of the component. *)
Definition set_cells {S} (f : S -> S) : L S unit :=
  fun s w => (Return tt, f s, w).

Definition ltry_catch {S A} (body : L S A) (handler : JsError -> L S A)
    : L S A :=
  fun s w =>
    match body s w with
    | (Return a, s', w') => (Return a, s', w')
    | (Throw e, s', w') => handler e s' w'
    end.

Definition ltry_finally {S A} (body : L S A) (fin : L S unit) : L S A :=
  fun s w =>
    match body s w with
    | (r, s', w') =>
        match fin s' w' with
        | (Return _, s'', w'') => (r, s'', w'')
        | (Throw e, s'', w'') => (Throw e, s'', w'')
        end
    end.

End Local.

Declare Scope local_scope.
Delimit Scope local_scope with L.
Notation "x ← y ; z" := (Local.lbind y (fun x => z)) (only parsing)
  : local_scope.
Notation "x ;; z" := (Local.lbind x (fun _ => z)) (only parsing)
  : local_scope.

(** ** components/auth/LoginForm *)

Module LoginForm.

Record Cells := {
  error : string;
  isLoading : bool }.

Definition setError (s : string) : Local.L Cells unit :=
  Local.set_cells (fun c => {| error := s; isLoading := isLoading c |}).
Definition setIsLoading (b : bool) : Local.L Cells unit :=
  Local.set_cells (fun c => {| error := error c; isLoading := b |}).

Definition handleSubmit (backend : Backend) (email password : string)
    : Local.L Cells unit :=
  (setError "";;
   setIsLoading true;;
   Local.ltry_finally
     (Local.ltry_catch
        (Local.lift (AuthProvider.signIn backend email password))
        (fun error => setError (message error)))
     (setIsLoading false))%L.

End LoginForm.

(** ** components/auth/ConfirmEmailForm *)

Module ConfirmEmailForm.

(** The callback the form hands to [setTimeout]. *)
Inductive Timer := Call_onConfirmed.

(** The cells of the form, and the timers it has registered. *)
Record Cells := {
  error : string;
  success : string;
  isLoading : bool;
  isResending : bool;
  timers : list (Timer * nat) }.

Definition setError (s : string) : Local.L Cells unit :=
  Local.set_cells (fun c =>
    {| error := s; success := success c; isLoading := isLoading c;
       isResending := isResending c; timers := timers c |}).
Definition setSuccess (s : string) : Local.L Cells unit :=
  Local.set_cells (fun c =>
    {| error := error c; success := s; isLoading := isLoading c;
       isResending := isResending c; timers := timers c |}).
Definition setIsLoading (b : bool) : Local.L Cells unit :=
  Local.set_cells (fun c =>
    {| error := error c; success := success c; isLoading := b;
       isResending := isResending c; timers := timers c |}).
Definition setIsResending (b : bool) : Local.L Cells unit :=
  Local.set_cells (fun c =>
    {| error := error c; success := success c; isLoading := isLoading c;
       isResending := b; timers := timers c |}).
Definition setTimeout (cb : Timer) (ms : nat) : Local.L Cells unit :=
  Local.set_cells (fun c =>
    {| error := error c; success := success c; isLoading := isLoading c;
       isResending := isResending c; timers := timers c ++ [(cb, ms)] |}).

(** White space and line terminators among the code units below 256:
    tab, line feed, vertical tab, form feed, carriage return, space and
    no-break space. *)
Definition is_whitespace (c : Ascii.ascii) : bool :=
  match Ascii.nat_of_ascii c with
  | 9 | 10 | 11 | 12 | 13 | 32 | 160 => true
  | _ => false
  end.

Fixpoint trimStart (s : string) : string :=
  match s with
  | EmptyString => EmptyString
  | String c rest => if is_whitespace c then trimStart rest else s
  end.

(** A code unit is dropped from the end when it is white space and nothing
    but white space follows it. *)
Fixpoint trimEnd (s : string) : string :=
  match s with
  | EmptyString => EmptyString
  | String c rest =>
      match trimEnd rest with
      | EmptyString => if is_whitespace c then EmptyString
                       else String c EmptyString
      | kept => String c kept
      end
  end.

(** [String.prototype.trim] *)
Definition trim (s : string) : string := trimEnd (trimStart s).

Definition handleSubmit (backend : Backend) (email confirmationCode : string)
    : Local.L Cells unit :=
  (setError "";;
   setSuccess "";;
   if negb (truthy (trim confirmationCode)) then
     setError "Please enter the confirmation code"
   else
     setIsLoading true;;
     Local.ltry_finally
       (Local.ltry_catch
          (Local.lift
             (ApiService.confirmSignUp backend email (trim confirmationCode));;
           setSuccess "Email confirmed successfully! You can now sign in.";;
           setTimeout Call_onConfirmed 2000)
          (fun error => setError (message error)))
       (setIsLoading false))%L.

Definition handleResendCode : Local.L Cells unit :=
  (setError "";;
   setSuccess "";;
   setIsResending true;;
   Local.ltry_finally
     (Local.ltry_catch
        (setSuccess "If you need a new code, please try signing up again.")
        (fun _ => setError "Failed to resend code"))
     (setIsResending false))%L.

(** A fired timer runs [onConfirmed], which [AppContent] wires to
    [handleEmailConfirmed]. *)
Definition run_timer (cb : Timer) : M unit :=
  match cb with Call_onConfirmed => App.handleEmailConfirmed end.

End ConfirmEmailForm.

(** ** components/onboarding/OnboardingForm.tsx: the three-step wizard *)

Module OnboardingWizard.

(** The updater [handleSportToggle] passes to [setSports]. *)
Definition handleSportToggle (sport : string) (prev : list string)
    : list string :=
  if decide (sport ∈ prev) then filter (fun s => s ≠ sport) prev
  else prev ++ [sport].

(** The updater [handleDayToggle] passes to [setAvailability]. *)
Definition handleDayToggle (day : string) (prev : list string)
    : list string :=
  if decide (day ∈ prev) then filter (fun d => d ≠ day) prev
  else prev ++ [day].

(** [sports.length > 0 ? sports : undefined] *)
Definition nonempty_or_undefined (l : list string) : option (list string) :=
  if 0 <? length l then Some l else None.

(** The step counter; the values it takes are small integers. *)
Definition nextStep (step : Z) : Z := (step + 1)%Z.
Definition prevStep (step : Z) : Z := (step - 1)%Z.

Inductive Button := Next | Back | Submit.

#[global] Instance Button_eq_dec : EqDecision Button.
Proof. solve_decision. Defined.

(** The buttons of [renderStep1], [renderStep2] and [renderStep3]; no step
    is rendered for any other value of the counter. *)
Definition buttons (step : Z) : list Button :=
  if (step =? 1)%Z then [Next]
  else if (step =? 2)%Z then [Back; Next]
  else if (step =? 3)%Z then [Back; Submit]
  else [].

(** A click on a button the current step shows; [Submit] submits the form
    and leaves the counter alone. *)
Definition click (b : Button) (step : Z) : option Z :=
  if decide (b ∈ buttons step) then
    Some (match b with
          | Next => nextStep step
          | Back => prevStep step
          | Submit => step
          end)
  else None.

Fixpoint clicks (bs : list Button) (step : Z) : option Z :=
  match bs with
  | [] => Some step
  | b :: rest =>
      match click b step with
      | Some step' => clicks rest step'
      | None => None
      end
  end.

End OnboardingWizard.

(** ** App.tsx: the callbacks [AppContent] hands to its screens *)

Module Flow.

Inductive Action :=
| SwitchToSignUp
| SwitchToLogin
| SignUpSuccess (email : string)
| EmailConfirmed
| BackToSignUp
| StartSetup
| SignOut
| OnboardingComplete.

Definition run (a : Action) : M unit :=
  match a with
  | SwitchToSignUp => App.setShowSignUp true
  | SwitchToLogin => App.setShowSignUp false
  | SignUpSuccess email => App.handleSignUpSuccess email
  | EmailConfirmed => App.handleEmailConfirmed
  | BackToSignUp => App.handleBackToSignUp
  | StartSetup => App.setShowOnboarding true
  | SignOut => App.handleSignOut
  | OnboardingComplete => App.handleOnboardingComplete
  end.

(** The callbacks passed to what each screen renders. *)
Definition wired (screen : App.Screen) (a : Action) : bool :=
  match screen, a with
  | App.ConfirmEmail, (EmailConfirmed | BackToSignUp) => true
  | App.SignUp, (SwitchToLogin | SignUpSuccess _) => true
  | App.SignIn, SwitchToSignUp => true
  | App.WelcomeGate, (StartSetup | SignOut) => true
  | App.Onboarding, OnboardingComplete => true
  | App.Main, SignOut => true
  | _, _ => false
  end.

(** The callbacks the forms call from a timer, which may fire when another
    screen is shown. *)
Definition deferred (a : Action) : bool :=
  match a with
  | SignUpSuccess _ | EmailConfirmed => true
  | _ => false
  end.

(** At most one of [showSignUp] and [showConfirmEmail] is set. *)
Definition exclusive (f : FlowState) : Prop :=
  ~ (showSignUp f = true /\ showConfirmEmail f = true).

End Flow.

(** Events of the provider and the API service: requests, store writes,
    console output and the two cells of [AuthProvider]. *)
Definition session_event (ev : event) : bool :=
  match ev with
  | Fetch _ | SetItem _ _ | RemoveItem _ | ConsoleError _ _
  | SetUser _ | SetIsLoading _ => true
  | _ => false
  end.

(** Events that write the store or a cell of [AuthProvider]. *)
Definition touches_session (ev : event) : bool :=
  match ev with
  | SetItem _ _ | RemoveItem _ | SetUser _ | SetIsLoading _ => true
  | _ => false
  end.

Definition is_refresh_request (ev : event) : bool :=
  match ev with Fetch (POST_auth_refresh _) => true | _ => false end.

Definition is_timeout (ev : event) : bool :=
  match ev with SetTimeout _ _ => true | _ => false end.

(** Starting cells of the two forms. *)
Definition login_cells : LoginForm.Cells :=
  {| LoginForm.error := ""; LoginForm.isLoading := false |}.

Definition confirm_cells : ConfirmEmailForm.Cells :=
  {| ConfirmEmailForm.error := ""; ConfirmEmailForm.success := "";
     ConfirmEmailForm.isLoading := false;
     ConfirmEmailForm.isResending := false;
     ConfirmEmailForm.timers := [] |}.

(** The confirmation endpoint refuses the code. *)
Definition confirm_400 : Backend := fun h r =>
  match r as r0 return FetchOutcome (body_of r0) with
  | POST_auth_confirm_signup _ _ =>
      Scenario.respond 400 (Some "Invalid verification code")
        Scenario.not_json
  | r0 => Scenario.all_ok h r0
  end.

(** The sign-up endpoint refuses the account. *)
Definition signup_400 : Backend := fun h r =>
  match r as r0 return FetchOutcome (body_of r0) with
  | POST_auth_signup _ _ _ =>
      Scenario.respond 400 (Some "User already exists") Scenario.not_json
  | r0 => Scenario.all_ok h r0
  end.

(** The sign-in endpoint refuses the credentials. *)
Definition signin_401 : Backend := fun h r =>
  match r as r0 return FetchOutcome (body_of r0) with
  | POST_auth_signin _ _ =>
      Scenario.respond 401 (Some "Incorrect username or password")
        Scenario.not_json
  | r0 => Scenario.all_ok h r0
  end.

(** The profile endpoint answers 404. *)
Definition profile_404 : Backend := fun h r =>
  match r as r0 return FetchOutcome (body_of r0) with
  | GET_users_profile _ =>
      Scenario.respond 404 (Some "Profile not found") Scenario.not_json
  | r0 => Scenario.all_ok h r0
  end.

(** ** Basic facts about the API client *)

Section ApiFacts.
Variable backend : Backend.

Lemma fetch_run r w :
  ApiService.fetch backend r w =
  (match backend (trace w) r with
   | Rejected e => Throw e
   | Resolved response => Return response
   end, after w [Fetch r]).
Proof. unfold ApiService.fetch. by destruct (backend _ _). Qed.

Lemma handleResponse_run {T} (response : Response T) w :
  ApiService.handleResponse response w = (settle (Resolved response), w).
Proof.
  unfold ApiService.handleResponse, settle.
  destruct (ok response); simpl.
  - by destruct (json response).
  - unfold bind. by destruct (detail response) as [[d|]|e].
Qed.

(** A request followed by [handleResponse]. *)
Lemma call_run r w :
  (response ← ApiService.fetch backend r;
   ApiService.handleResponse response) w =
  (settle (backend (trace w) r), after w [Fetch r]).
Proof.
  unfold bind. rewrite fetch_run.
  destruct (backend (trace w) r) as [e|response]; [done|].
  apply handleResponse_run.
Qed.

Lemma getAuthHeaders_run w :
  ApiService.getAuthHeaders w = (Return (bearer (readAccessToken (state w))), w).
Proof. reflexivity. Qed.

Lemma signIn_run email password w :
  ApiService.signIn backend email password w =
  (settle (backend (trace w) (POST_auth_signin email password)),
   after w [Fetch (POST_auth_signin email password)]).
Proof. exact (call_run (POST_auth_signin email password) w). Qed.

Lemma signUp_run email password name w :
  ApiService.signUp backend email password name w =
  (settle (backend (trace w) (POST_auth_signup email password name)),
   after w [Fetch (POST_auth_signup email password name)]).
Proof. exact (call_run (POST_auth_signup email password name) w). Qed.

Lemma refreshToken_run t w :
  ApiService.refreshToken backend t w =
  (settle (backend (trace w) (POST_auth_refresh t)),
   after w [Fetch (POST_auth_refresh t)]).
Proof. exact (call_run (POST_auth_refresh t) w). Qed.

Lemma getCurrentUser_run w :
  ApiService.getCurrentUser backend w =
  (settle (backend (trace w) (GET_auth_me (bearer (readAccessToken (state w))))),
   after w [Fetch (GET_auth_me (bearer (readAccessToken (state w))))]).
Proof.
  unfold ApiService.getCurrentUser, bind at 1.
  rewrite getAuthHeaders_run. exact (call_run (GET_auth_me _) w).
Qed.

Lemma autoCreateProfile_run w :
  ApiService.autoCreateProfile backend w =
  (settle (backend (trace w)
     (POST_users_profile_auto_create (bearer (readAccessToken (state w))))),
   after w [Fetch (POST_users_profile_auto_create
     (bearer (readAccessToken (state w))))]).
Proof.
  unfold ApiService.autoCreateProfile, bind at 1.
  rewrite getAuthHeaders_run.
  exact (call_run (POST_users_profile_auto_create _) w).
Qed.

Lemma completeOnboarding_run p q w :
  ApiService.completeOnboarding backend p q w =
  (settle (backend (trace w)
     (POST_users_onboarding (bearer (readAccessToken (state w))) p q)),
   after w [Fetch (POST_users_onboarding
     (bearer (readAccessToken (state w))) p q)]).
Proof.
  unfold ApiService.completeOnboarding, bind at 1.
  rewrite getAuthHeaders_run.
  exact (call_run (POST_users_onboarding _ p q) w).
Qed.
End ApiFacts.

(** ** Basic facts about worlds and the provider *)

Lemma after_nil w : after w [] = w.
Proof. destruct w. unfold after. simpl. by rewrite app_nil_r. Qed.

Lemma after_after w evs1 evs2 :
  after (after w evs1) evs2 = after w (evs1 ++ evs2).
Proof.
  unfold after, replay. simpl. by rewrite fold_left_app, app_assoc.
Qed.

Lemma emit_run ev w : emit ev w = (Return tt, after w [ev]).
Proof. reflexivity. Qed.

Lemma replay_snoc s evs ev :
  replay s (evs ++ [ev]) = apply_event (replay s evs) ev.
Proof. unfold replay. by rewrite fold_left_app. Qed.

Section ProviderFacts.
Variable backend : Backend.

Lemma saveTokens_run authResponse w :
  AuthProvider.saveTokens authResponse w =
  (Return tt,
   after w [SetItem "access_token" (access_token authResponse);
            SetItem "refresh_token" (refresh_token authResponse)]).
Proof.
  unfold AuthProvider.saveTokens, bind, localStorage_setItem.
  by rewrite !emit_run, after_after.
Qed.

Lemma signOut_run w :
  AuthProvider.signOut w =
  (Return tt,
   after w [RemoveItem "access_token"; RemoveItem "refresh_token";
            SetUser None]).
Proof.
  unfold AuthProvider.signOut, AuthProvider.clearTokens, bind,
    localStorage_removeItem, AuthProvider.setUser.
  by rewrite !emit_run, !after_after.
Qed.

(** The access token read back after [saveTokens]. *)
Lemma readAccessToken_saved authResponse s :
  readAccessToken
    (replay s [SetItem "access_token" (access_token authResponse);
               SetItem "refresh_token" (refresh_token authResponse)]) =
  Some (access_token authResponse).
Proof.
  unfold readAccessToken. simpl.
  rewrite lookup_insert_ne by done. apply lookup_insert_eq.
Qed.

Lemma readRefreshToken_saved authResponse s :
  readRefreshToken
    (replay s [SetItem "access_token" (access_token authResponse);
               SetItem "refresh_token" (refresh_token authResponse)]) =
  Some (refresh_token authResponse).
Proof. unfold readRefreshToken. simpl. apply lookup_insert_eq. Qed.

(** The identity fetch and [setUser] that end [signIn] and
    [refreshAuth], run in the world [w]. *)
Lemma identity_run w :
  (userInfo ← ApiService.getCurrentUser backend;
   AuthProvider.setUser (Some userInfo)) w =
  let me := GET_auth_me (bearer (readAccessToken (state w))) in
  match settle (backend (trace w) me) with
  | Return userInfo => (Return tt, after w [Fetch me; SetUser (Some userInfo)])
  | Throw e => (Throw e, after w [Fetch me])
  end.
Proof.
  unfold bind. rewrite getCurrentUser_run. simpl.
  destruct (settle _) as [userInfo|e]; [|done].
  unfold AuthProvider.setUser. by rewrite emit_run, after_after.
Qed.

(** [signIn], case by case on what the backend answers. *)
Lemma signIn_cases email password w :
  AuthProvider.signIn backend email password w =
  let signin := POST_auth_signin email password in
  match settle (backend (trace w) signin) with
  | Throw e =>
      (Throw e, after w [Fetch signin; ConsoleError "Sign in error:" e])
  | Return authResponse =>
      let saved :=
        [Fetch signin;
         SetItem "access_token" (access_token authResponse);
         SetItem "refresh_token" (refresh_token authResponse)] in
      let me := GET_auth_me (bearer (Some (access_token authResponse))) in
      match settle (backend (trace w ++ saved) me) with
      | Throw e =>
          (Throw e,
           after w (saved ++ [Fetch me; ConsoleError "Sign in error:" e]))
      | Return userInfo =>
          (Return tt, after w (saved ++ [Fetch me; SetUser (Some userInfo)]))
      end
  end.
Proof.
  unfold AuthProvider.signIn, try_catch, bind at 1.
  rewrite signIn_run. cbv zeta.
  destruct (settle (backend (trace w) _)) as [authResponse|e].
  - unfold bind at 1. rewrite saveTokens_run, after_after.
    rewrite identity_run. cbv zeta.
    replace (readAccessToken (state (after w _)))
      with (Some (access_token authResponse))
      by (symmetry; apply (readAccessToken_saved authResponse)).
    change (trace (after w ?l)) with (trace w ++ l).
    destruct (settle (backend (trace w ++ _) _)) as [userInfo|e].
    + by rewrite after_after.
    + unfold bind, console_error, throw.
      by rewrite emit_run, !after_after.
  - unfold bind, console_error, throw.
    by rewrite emit_run, after_after.
Qed.
End ProviderFacts.

Section RefreshFacts.
Variable backend : Backend.

Lemma refresh_catch_run w evs e :
  (console_error "Token refresh error:" e;; AuthProvider.signOut)
    (after w evs) = refresh_caught w evs e.
Proof.
  unfold bind, console_error, refresh_caught.
  by rewrite emit_run, signOut_run, !after_after, <- ?app_assoc.
Qed.

(** [refreshAuth], case by case on the store and on what the backend
    answers. *)
Lemma refreshAuth_cases w :
  AuthProvider.refreshAuth backend w =
  match readRefreshToken (state w) with
  | None => refresh_caught w [] (Error "No refresh token available")
  | Some t =>
      if truthy t then
        let refresh := POST_auth_refresh t in
        match settle (backend (trace w) refresh) with
        | Throw e => refresh_caught w [Fetch refresh] e
        | Return authResponse =>
            let saved :=
              [Fetch refresh;
               SetItem "access_token" (access_token authResponse);
               SetItem "refresh_token" (refresh_token authResponse)] in
            let me :=
              GET_auth_me (bearer (Some (access_token authResponse))) in
            match settle (backend (trace w ++ saved) me) with
            | Throw e => refresh_caught w (saved ++ [Fetch me]) e
            | Return userInfo =>
                (Return tt,
                 after w (saved ++ [Fetch me; SetUser (Some userInfo)]))
            end
        end
      else refresh_caught w [] (Error "No refresh token available")
  end.
Proof.
  unfold AuthProvider.refreshAuth, try_catch, bind at 1.
  unfold localStorage_getItem, bind at 1, get_state, ret at 1.
  fold (readRefreshToken (state w)).
  destruct (readRefreshToken (state w)) as [t|].
  2: { unfold bind at 1, throw at 1.
       by rewrite <- (after_nil w) at 1; rewrite refresh_catch_run. }
  destruct (truthy t).
  2: { unfold bind at 1, throw at 1.
       by rewrite <- (after_nil w) at 1; rewrite refresh_catch_run. }
  unfold bind at 1, ret at 1. unfold bind at 1.
  rewrite refreshToken_run. cbv zeta.
  destruct (settle (backend (trace w) _)) as [authResponse|e].
  2: { by rewrite refresh_catch_run. }
  unfold bind at 1. rewrite saveTokens_run, after_after.
  rewrite identity_run. cbv zeta.
  replace (readAccessToken (state (after w _)))
    with (Some (access_token authResponse))
    by (symmetry; apply (readAccessToken_saved authResponse)).
  change (trace (after w ?l)) with (trace w ++ l).
  destruct (settle (backend (trace w ++ _) _)) as [userInfo|e].
  - by rewrite after_after.
  - by rewrite after_after, refresh_catch_run.
Qed.
End RefreshFacts.

(** ** Sign-in *)

(** C1. When the token exchange of [signIn] succeeds and the identity
    fetch that follows fails, [signIn] rejects with that very error, both
    tokens saved by the exchange are still in the store, nothing was removed
    from it, and the current user is what it was before the call (so it
    stays unset when it was unset). *)
Theorem signIn_keeps_tokens_when_identity_fetch_fails
    (backend : Backend) (email password : string) (w w1 w2 w3 : World)
    (authResponse : AuthResponse) (error : JsError) :
  ApiService.signIn backend email password w = (Return authResponse, w1) ->
  AuthProvider.saveTokens authResponse w1 = (Return tt, w2) ->
  ApiService.getCurrentUser backend w2 = (Throw error, w3) ->
  exists w',
    AuthProvider.signIn backend email password w = (Throw error, w') /\
    readAccessToken (state w') = Some (access_token authResponse) /\
    readRefreshToken (state w') = Some (refresh_token authResponse) /\
    user (auth (state w')) = user (auth (state w)) /\
    (user (auth (state w)) = None -> user (auth (state w')) = None) /\
    trace w' = trace w ++
      [Fetch (POST_auth_signin email password);
       SetItem "access_token" (access_token authResponse);
       SetItem "refresh_token" (refresh_token authResponse);
       Fetch (GET_auth_me (bearer (Some (access_token authResponse))));
       ConsoleError "Sign in error:" error].
Proof.
  intros Hexchange Hsave Hme.
  rewrite signIn_run in Hexchange. injection Hexchange as Hsettle <-.
  rewrite saveTokens_run in Hsave. injection Hsave as <-.
  rewrite getCurrentUser_run in Hme. injection Hme as Hme _.
  replace (readAccessToken _) with (Some (access_token authResponse)) in Hme
    by (symmetry; apply (readAccessToken_saved authResponse (state w))).
  rewrite <- app_assoc in Hme. simpl app in Hme.
  rewrite signIn_cases. cbv zeta. cbn [body_of] in *. rewrite Hsettle, Hme.
  eexists. split; [reflexivity|].
  split; [|split; [|split; [|split]]].
  - unfold readAccessToken. simpl.
    rewrite lookup_insert_ne by done. apply lookup_insert_eq.
  - unfold readRefreshToken. simpl. apply lookup_insert_eq.
  - reflexivity.
  - intros Hnone. exact Hnone.
  - reflexivity.
Qed.

Lemma signIn_keeps_tokens_when_identity_fetch_fails_witness :
  exists w',
    AuthProvider.signIn Scenario.me_401 "a@b.com" "Passw0rd!" Scenario.fresh =
      (Throw (Error "Invalid token"), w') /\
    readAccessToken (state w') = Some "at-1" /\
    readRefreshToken (state w') = Some "rt-1" /\
    user (auth (state w')) = None /\
    (user (auth (state Scenario.fresh)) = None ->
     user (auth (state w')) = None) /\
    trace w' =
      [Fetch (POST_auth_signin "a@b.com" "Passw0rd!");
       SetItem "access_token" "at-1";
       SetItem "refresh_token" "rt-1";
       Fetch (GET_auth_me (Some "Bearer at-1"));
       ConsoleError "Sign in error:" (Error "Invalid token")].
Proof.
  eapply (signIn_keeps_tokens_when_identity_fetch_fails
            Scenario.me_401 "a@b.com" "Passw0rd!" Scenario.fresh
            _ _ _ Scenario.tokens (Error "Invalid token"));
    reflexivity.
Defined.



(** ** Sign-out *)

Lemma SessionStore_empty_cleared s :
  SessionStore_empty
    (replay s [RemoveItem "access_token"; RemoveItem "refresh_token";
               SetUser None]).
Proof.
  unfold SessionStore_empty, readAccessToken, readRefreshToken. simpl. split.
  - rewrite lookup_delete_ne by done. apply lookup_delete_eq.
  - apply lookup_delete_eq.
Qed.

Lemma SessionStore_empty_after w evs :
  SessionStore_empty
    (state (after w (evs ++ [RemoveItem "access_token";
                             RemoveItem "refresh_token"; SetUser None]))).
Proof.
  unfold after, replay. simpl state. rewrite fold_left_app.
  apply SessionStore_empty_cleared.
Qed.

Lemma isAuthenticated_after_cleared w evs :
  AuthProvider.isAuthenticated
    (state (after w (evs ++ [RemoveItem "access_token";
                             RemoveItem "refresh_token"; SetUser None]))) =
  false.
Proof. unfold after, replay. simpl state. by rewrite fold_left_app. Qed.

(** C4. Whatever the state, [signOut] returns normally and leaves the
    client unauthenticated with both tokens gone from the store; a second
    [signOut] also returns normally and changes nothing. *)
Theorem signOut_unconditional_and_idempotent (w : World) :
  exists w1,
    AuthProvider.signOut w = (Return tt, w1) /\
    AuthProvider.isAuthenticated (state w1) = false /\
    SessionStore_empty (state w1) /\
    exists w2,
      AuthProvider.signOut w1 = (Return tt, w2) /\
      state w2 = state w1.
Proof.
  eexists. split; [apply signOut_run|].
  split; [reflexivity|].
  split; [apply (SessionStore_empty_cleared (state w))|].
  eexists. split; [apply signOut_run|].
  unfold after, replay, with_localStorage. simpl.
  unfold with_auth, with_localStorage. simpl. f_equal.
  apply map_eq. intros k.
  destruct (decide (k = "refresh_token")) as [->|Hrefresh].
  { by rewrite !lookup_delete_eq. }
  rewrite !(lookup_delete_ne _ "refresh_token") by congruence.
  destruct (decide (k = "access_token")) as [->|Haccess].
  { by rewrite !lookup_delete_eq. }
  repeat (rewrite lookup_delete_ne by congruence). reflexivity.
Qed.

(** ** Refresh *)

(** C2, as the code has it.  With no refresh token in the store,
    [refreshAuth] sends nothing: the error "No refresh token available" is
    raised and caught inside the call, which signs out and resolves
    normally. *)
Theorem refreshAuth_without_token_signs_out (backend : Backend) (w : World) :
  readRefreshToken (state w) = None ->
  exists evs,
    AuthProvider.refreshAuth backend w = (Return tt, after w evs) /\
    evs = [ConsoleError "Token refresh error:"
             (Error "No refresh token available");
           RemoveItem "access_token"; RemoveItem "refresh_token";
           SetUser None] /\
    (forall r, ~ In (Fetch r) evs) /\
    SessionStore_empty (state (after w evs)) /\
    AuthProvider.isAuthenticated (state (after w evs)) = false.
Proof.
  intros Hnone. rewrite refreshAuth_cases, Hnone.
  eexists. split; [reflexivity|]. split; [reflexivity|].
  split; [|split].
  - intros r Hin. simpl in Hin. intuition discriminate.
  - apply (SessionStore_empty_after w []).
  - reflexivity.
Qed.

Lemma refreshAuth_without_token_signs_out_witness :
  exists evs,
    AuthProvider.refreshAuth Scenario.all_ok Scenario.fresh =
      (Return tt, after Scenario.fresh evs) /\
    evs = [ConsoleError "Token refresh error:"
             (Error "No refresh token available");
           RemoveItem "access_token"; RemoveItem "refresh_token";
           SetUser None] /\
    (forall r, ~ In (Fetch r) evs) /\
    SessionStore_empty (state (after Scenario.fresh evs)) /\
    AuthProvider.isAuthenticated (state (after Scenario.fresh evs)) = false.
Proof.
  apply (refreshAuth_without_token_signs_out Scenario.all_ok Scenario.fresh).
  reflexivity.
Defined.

(** C2, as stated, fails: with an empty store [refreshAuth] does not reject
    with any error, it resolves. *)
Lemma refreshAuth_without_token_does_not_reject :
  readRefreshToken (state Scenario.fresh) = None /\
  (AuthProvider.refreshAuth Scenario.all_ok Scenario.fresh).1 = Return tt /\
  ~ (exists e w',
       AuthProvider.refreshAuth Scenario.all_ok Scenario.fresh =
         (Throw e, w')).
Proof.
  split; [reflexivity|]. split; [reflexivity|].
  intros (e & w' & Hrun). rewrite refreshAuth_cases in Hrun. discriminate.
Qed.

(** C6. When the stored refresh token is sent and the backend refuses it,
    [refreshAuth] does what [signOut] does: both tokens are removed and the
    client is unauthenticated.  The refresh request is the only request
    sent. *)
Theorem refreshAuth_backend_failure_signs_out
    (backend : Backend) (w w1 : World) (t : string) (error : JsError) :
  readRefreshToken (state w) = Some t ->
  truthy t = true ->
  ApiService.refreshToken backend t w = (Throw error, w1) ->
  exists w',
    AuthProvider.refreshAuth backend w = (Return tt, w') /\
    SessionStore_empty (state w') /\
    AuthProvider.isAuthenticated (state w') = false /\
    state w' = state (AuthProvider.signOut w).2 /\
    trace w' = trace w ++
      [Fetch (POST_auth_refresh t);
       ConsoleError "Token refresh error:" error;
       RemoveItem "access_token"; RemoveItem "refresh_token";
       SetUser None] /\
    filter is_fetch (drop (length (trace w)) (trace w')) =
      [Fetch (POST_auth_refresh t)].
Proof.
  intros Htoken Htruthy Hrefresh.
  rewrite refreshToken_run in Hrefresh. injection Hrefresh as Hsettle _.
  rewrite refreshAuth_cases, Htoken, Htruthy. cbv zeta.
  cbn [body_of] in *. rewrite Hsettle.
  eexists. split; [reflexivity|].
  split; [apply (SessionStore_empty_after w [_; _])|].
  split; [reflexivity|]. split; [by rewrite signOut_run|].
  split; [reflexivity|].
  simpl trace. by rewrite drop_app_length.
Qed.

Lemma refreshAuth_backend_failure_signs_out_witness :
  exists w',
    AuthProvider.refreshAuth Scenario.refresh_401 Scenario.signed_in =
      (Return tt, w') /\
    SessionStore_empty (state w') /\
    AuthProvider.isAuthenticated (state w') = false /\
    state w' = state (AuthProvider.signOut Scenario.signed_in).2 /\
    trace w' = trace Scenario.signed_in ++
      [Fetch (POST_auth_refresh "rt-0");
       ConsoleError "Token refresh error:" (Error "Invalid refresh token");
       RemoveItem "access_token"; RemoveItem "refresh_token";
       SetUser None] /\
    filter is_fetch (drop (length (trace Scenario.signed_in)) (trace w')) =
      [Fetch (POST_auth_refresh "rt-0")].
Proof.
  eapply (refreshAuth_backend_failure_signs_out
            Scenario.refresh_401 Scenario.signed_in _ "rt-0"
            (Error "Invalid refresh token"));
    reflexivity.
Defined.

(** The [catch] block of [refreshAuth] run in the world [wf]. *)
Lemma refresh_catch_at wf e :
  (console_error "Token refresh error:" e;; AuthProvider.signOut) wf =
  (Return tt,
   after wf [ConsoleError "Token refresh error:" e;
             RemoveItem "access_token"; RemoveItem "refresh_token";
             SetUser None]).
Proof.
  rewrite <- (after_nil wf) at 1. rewrite refresh_catch_run.
  reflexivity.
Qed.

(** When the [try] block fails, [refreshAuth] is its [catch] block run at
    the point of failure. *)
Lemma refreshAuth_on_failure (backend : Backend) w e wf :
  refresh_failure backend w e wf ->
  AuthProvider.refreshAuth backend w =
  (console_error "Token refresh error:" e;; AuthProvider.signOut) wf.
Proof.
  intros Hfail. rewrite refreshAuth_cases.
  destruct Hfail as [Hno
                    |t e w1 Htoken Htruthy Hcall
                    |t authResponse w1 w2 e w3 Htoken Htruthy Hcall Hsave Hget].
  - rewrite refresh_catch_at. unfold has_refresh_token in Hno.
    destruct (readRefreshToken (state w)) as [t|]; [rewrite Hno|];
      reflexivity.
  - rewrite Htoken, Htruthy. cbv zeta.
    rewrite refreshToken_run in Hcall. injection Hcall as Hsettle <-.
    cbn [body_of] in *. rewrite Hsettle.
    symmetry. apply refresh_catch_run.
  - rewrite Htoken, Htruthy. cbv zeta.
    rewrite refreshToken_run in Hcall. injection Hcall as Hsettle <-.
    rewrite saveTokens_run in Hsave. injection Hsave as <-.
    rewrite getCurrentUser_run in Hget. injection Hget as Hme <-.
    replace (readAccessToken _) with (Some (access_token authResponse)) in Hme
      by (symmetry; apply (readAccessToken_saved authResponse (state w))).
    rewrite <- app_assoc in Hme. simpl app in Hme.
    cbn [body_of] in *. rewrite Hsettle, Hme.
    rewrite !after_after. simpl app.
    replace (readAccessToken _) with (Some (access_token authResponse))
      by (symmetry; apply (readAccessToken_saved authResponse (state w))).
    symmetry.
    apply (refresh_catch_run w
      [Fetch (POST_auth_refresh t);
       SetItem "access_token" (access_token authResponse);
       SetItem "refresh_token" (refresh_token authResponse);
       Fetch (GET_auth_me (bearer (Some (access_token authResponse))))]).
Qed.

(** The three failures are the only ones: without any of them the refresh
    goes through and ends with [setUser]. *)
Lemma refreshAuth_fails_or_identifies (backend : Backend) w :
  (exists e wf, refresh_failure backend w e wf) \/
  (exists t authResponse userInfo,
     readRefreshToken (state w) = Some t /\
     AuthProvider.refreshAuth backend w =
       (Return tt,
        after w [Fetch (POST_auth_refresh t);
                 SetItem "access_token" (access_token authResponse);
                 SetItem "refresh_token" (refresh_token authResponse);
                 Fetch (GET_auth_me
                   (bearer (Some (access_token authResponse))));
                 SetUser (Some userInfo)])).
Proof.
  destruct (readRefreshToken (state w)) as [t|] eqn:Htoken.
  2: { left. eexists _, _. apply missing_refresh_token.
       unfold has_refresh_token. by rewrite Htoken. }
  destruct (truthy t) eqn:Htruthy.
  2: { left. eexists _, _. apply missing_refresh_token.
       unfold has_refresh_token. by rewrite Htoken. }
  assert (Hcall := refreshToken_run backend t w).
  destruct (settle (backend (trace w) (POST_auth_refresh t)))
    as [authResponse|e] eqn:Hsettle.
  2: { left. eexists _, _.
       by apply (refresh_request_fails backend w t e _ Htoken Htruthy). }
  assert (Hsave := saveTokens_run authResponse
    (after w [Fetch (POST_auth_refresh t)])).
  assert (Hget := getCurrentUser_run backend
    (after (after w [Fetch (POST_auth_refresh t)])
       [SetItem "access_token" (access_token authResponse);
        SetItem "refresh_token" (refresh_token authResponse)])).
  destruct (settle (backend _ (GET_auth_me _))) as [userInfo|e] eqn:Hme.
  - right. exists t, authResponse, userInfo. split; [reflexivity|].
    rewrite refreshAuth_cases, Htoken, Htruthy. cbv zeta.
    cbn [body_of] in *. rewrite Hsettle.
    replace (readAccessToken _) with (Some (access_token authResponse)) in Hme
      by (symmetry; apply (readAccessToken_saved authResponse (state w))).
    rewrite after_after in Hme.
    change (trace (after w ?l)) with (trace w ++ l) in Hme.
    simpl app in Hme. by rewrite Hme.
  - left. eexists _, _.
    by apply (identity_fetch_fails backend w t authResponse _ _ e _
                Htoken Htruthy Hcall Hsave).
Qed.

(** C9. [refreshAuth] never rejects.  In every state and whatever the
    backend answers it resolves; and when its [try] block fails, for lack of
    a refresh token, because the refresh request fails or because the
    identity fetch fails, the outcome is that of logging the error and
    calling [signOut] at the point of failure: the store is cleared and the
    client is unauthenticated. *)
Theorem refreshAuth_never_rejects (backend : Backend) (w : World) :
  exists w',
    AuthProvider.refreshAuth backend w = (Return tt, w') /\
    forall e wf,
      refresh_failure backend w e wf ->
      (console_error "Token refresh error:" e;; AuthProvider.signOut) wf =
        (Return tt, w') /\
      SessionStore_empty (state w') /\
      AuthProvider.isAuthenticated (state w') = false.
Proof.
  assert (Hresolves : exists w',
    AuthProvider.refreshAuth backend w = (Return tt, w')).
  { rewrite refreshAuth_cases. unfold refresh_caught. cbv zeta.
    destruct (readRefreshToken (state w)) as [t|]; [|eauto].
    destruct (truthy t); [|eauto].
    destruct (settle (backend (trace w) (POST_auth_refresh t)))
      as [authResponse|e]; [|eauto].
    destruct (settle (backend (trace w ++ _) (GET_auth_me _)))
      as [userInfo|e]; eauto. }
  destruct Hresolves as [w' Hw']. exists w'. split; [exact Hw'|].
  intros e wf Hfail.
  apply refreshAuth_on_failure in Hfail. rewrite Hw' in Hfail.
  split; [by symmetry|].
  rewrite refresh_catch_at in Hfail. injection Hfail as ->.
  split; [apply (SessionStore_empty_after wf [_])|reflexivity].
Qed.

(** ** Screen selection and flow handlers *)

(** The branch conditions of [render], screen by screen. *)
Lemma render_cases
    (isLoading isAuthenticated hasProfile showSignUp showConfirmEmail
     showOnboarding : bool) :
  App.render isLoading isAuthenticated hasProfile showSignUp showConfirmEmail
    showOnboarding =
  Some
    (if isLoading then App.Loading
     else if negb isAuthenticated then
       (if showConfirmEmail then App.ConfirmEmail
        else if showSignUp then App.SignUp else App.SignIn)
     else if negb hasProfile && negb showOnboarding then App.WelcomeGate
     else if showOnboarding then App.Onboarding
     else App.Main).
Proof.
  by destruct isLoading, isAuthenticated, hasProfile, showSignUp,
    showConfirmEmail, showOnboarding.
Qed.

(** Each of the seven screens is selected by some flags. *)
Lemma render_reaches_every_screen (screen : App.Screen) :
  exists l a p u c o, App.render l a p u c o = Some screen.
Proof.
  destruct screen.
  - by exists true, false, false, false, false, false.
  - by exists false, false, false, false, true, false.
  - by exists false, false, false, false, false, false.
  - by exists false, false, false, true, false, false.
  - by exists false, true, false, false, false, false.
  - by exists false, true, false, false, false, true.
  - by exists false, true, true, false, false, false.
Qed.

(** C3. For every combination of the six flags the render body returns,
    and returns exactly one screen; with [isLoading] set that screen is
    [Loading], whatever the other flags. *)
Theorem render_selects_exactly_one_screen
    (isLoading isAuthenticated hasProfile showSignUp showConfirmEmail
     showOnboarding : bool) :
  (exists! screen : App.Screen,
     App.render isLoading isAuthenticated hasProfile showSignUp
       showConfirmEmail showOnboarding = Some screen) /\
  App.render true isAuthenticated hasProfile showSignUp showConfirmEmail
    showOnboarding = Some App.Loading.
Proof.
  split; [|reflexivity].
  rewrite render_cases. eexists. split; [reflexivity|].
  intros screen Hscreen. by injection Hscreen.
Qed.

Lemma handleSignOut_run w :
  App.handleSignOut w =
  (Return tt,
   after w [RemoveItem "access_token"; RemoveItem "refresh_token";
            SetUser None; SetHasProfile false; SetShowOnboarding false;
            SetShowConfirmEmail false; SetSignUpEmail ""]).
Proof.
  unfold App.handleSignOut, bind. rewrite signOut_run.
  unfold App.setHasProfile, App.setShowOnboarding, App.setShowConfirmEmail,
    App.setSignUpEmail.
  by rewrite !emit_run, !after_after.
Qed.

(** What [handleSignOut] does to the flow cells: four are reset,
    [showSignUp] keeps its value. *)
Lemma handleSignOut_flow w :
  flow (state (App.handleSignOut w).2) =
  {| showSignUp := showSignUp (flow (state w));
     showOnboarding := false; hasProfile := false;
     showConfirmEmail := false; signUpEmail := "" |}.
Proof. by rewrite handleSignOut_run. Qed.

(** C7, at a state where it fails.  Signing out with [showSignUp] set
    leaves it set: the flow cells are not back to their initial values and
    the screen shown next is the sign-up form. *)
Theorem handleSignOut_leaves_showSignUp_set :
  showSignUp (flow (state Scenario.signed_in_on_signup)) = true /\
  showSignUp (flow (state (App.handleSignOut
    Scenario.signed_in_on_signup).2)) = true /\
  flow (state (App.handleSignOut Scenario.signed_in_on_signup).2) <>
    App.initial_flow /\
  App.AppContent (state (App.handleSignOut
    Scenario.signed_in_on_signup).2) = Some App.SignUp.
Proof.
  split; [reflexivity|]. split; [reflexivity|]. split; [|reflexivity].
  rewrite handleSignOut_flow. discriminate.
Qed.

(** ** Onboarding submission *)

Section OnboardingFacts.
Variable backend : Backend.

(** The [catch] and [finally] blocks of the submit handler, after the
    events [evs] of the [try] block ended in the error [e]. *)
Lemma onboarding_caught w evs e :
  try_finally
    (try_catch (fun w' => (Throw e, after w evs) : Completion unit * World)
       (fun error => OnboardingForm.setError (message error)))
    (OnboardingForm.setIsLoading false) w =
  (Return tt,
   after w (evs ++ [SetError TheOnboardingForm (message e);
                    SetFormLoading TheOnboardingForm false])).
Proof.
  unfold try_finally, try_catch, OnboardingForm.setError,
    OnboardingForm.setIsLoading.
  by rewrite !emit_run, !after_after, <- ?app_assoc.
Qed.

(** The submit handler, case by case on what the backend answers. *)
Lemma onboarding_handleSubmit_cases (onComplete : M unit) f w :
  OnboardingForm.handleSubmit backend onComplete f w =
  let w0 := after w [SetError TheOnboardingForm "";
                     SetFormLoading TheOnboardingForm true] in
  let token := bearer (readAccessToken (state w)) in
  let auto := POST_users_profile_auto_create token in
  let write :=
    POST_users_onboarding token (profileData f) (preferencesData f) in
  match settle (backend (trace w0) auto) with
  | Throw e =>
      (Return tt,
       after w0 [Fetch auto; SetError TheOnboardingForm (message e);
                 SetFormLoading TheOnboardingForm false])
  | Return _ =>
      match settle (backend (trace w0 ++ [Fetch auto]) write) with
      | Throw e =>
          (Return tt,
           after w0 [Fetch auto; Fetch write;
                     SetError TheOnboardingForm (message e);
                     SetFormLoading TheOnboardingForm false])
      | Return _ =>
          try_finally
            (try_catch onComplete
               (fun error => OnboardingForm.setError (message error)))
            (OnboardingForm.setIsLoading false)
            (after w0 [Fetch auto; Fetch write])
      end
  end.
Proof.
  cbv zeta.
  set (w0 := after w [SetError TheOnboardingForm "";
                      SetFormLoading TheOnboardingForm true]).
  unfold OnboardingForm.handleSubmit, bind at 1 2.
  unfold OnboardingForm.setError at 1, OnboardingForm.setIsLoading at 1.
  rewrite !emit_run, after_after.
  change (after w ([_] ++ [_])) with w0.
  unfold try_finally at 1, try_catch at 1, bind at 1.
  rewrite autoCreateProfile_run.
  change (readAccessToken (state w0)) with (readAccessToken (state w)).
  destruct (settle (backend (trace w0) (POST_users_profile_auto_create _)))
    as [[]|e].
  - unfold bind at 1. rewrite completeOnboarding_run.
    change (readAccessToken (state (after w0 _)))
      with (readAccessToken (state w)).
    change (trace (after w0 ?l)) with (trace w0 ++ l).
    fold (profileData f). fold (preferencesData f).
    destruct (settle (backend (trace w0 ++ _) (POST_users_onboarding _ _ _)))
      as [[]|e].
    + by rewrite after_after.
    + unfold OnboardingForm.setError, OnboardingForm.setIsLoading.
      by rewrite !emit_run, !after_after.
  - unfold OnboardingForm.setError, OnboardingForm.setIsLoading.
    by rewrite !emit_run, !after_after.
Qed.
End OnboardingFacts.

(** C8. In the onboarding submit handler the combined write is sent exactly
    when auto-create succeeded.  When auto-create fails, or the combined
    write fails, the handler shows the message of that error, leaves every
    flow cell as it was (so [hasProfile] stays false), and its outcome is
    the same whatever callback it was given: [onComplete] is not called. *)
Theorem onboarding_write_needs_auto_create
    (backend : Backend) (f : OnboardingForm.Fields) (w : World) :
  let w0 := after w [SetError TheOnboardingForm "";
                     SetFormLoading TheOnboardingForm true] in
  exists evs,
    OnboardingForm.handleSubmit backend App.handleOnboardingComplete f w =
      (Return tt, after w0 evs) /\
    ((exists h p q, In (Fetch (POST_users_onboarding h p q)) evs) <->
     (ApiService.autoCreateProfile backend w0).1 = Return tt) /\
    (forall e,
       onboarding_failure backend f w0 e ->
       form_error (onboardingForm (state (after w0 evs))) = message e /\
       flow (state (after w0 evs)) = flow (state w) /\
       (hasProfile (flow (state w)) = false ->
        hasProfile (flow (state (after w0 evs))) = false) /\
       (forall onComplete : M unit,
          OnboardingForm.handleSubmit backend onComplete f w =
            (Return tt, after w0 evs))).
Proof.
  cbv zeta. set (w0 := after w _).
  assert (Hauto := autoCreateProfile_run backend w0).
  change (readAccessToken (state w0)) with (readAccessToken (state w))
    in Hauto.
  assert (Hwrite := completeOnboarding_run backend (profileData f)
    (preferencesData f)
    (after w0 [Fetch (POST_users_profile_auto_create
                 (bearer (readAccessToken (state w))))])).
  change (readAccessToken (state (after w0 _)))
    with (readAccessToken (state w)) in Hwrite.
  change (trace (after w0 ?l)) with (trace w0 ++ l) in Hwrite.
  rewrite after_after in Hwrite.
  change ([?a] ++ [?b]) with [a; b] in Hwrite.
  assert (Hcases := fun k => onboarding_handleSubmit_cases backend k f w).
  cbv zeta in Hcases. fold w0 in Hcases.
  destruct (settle (backend (trace w0) (POST_users_profile_auto_create _)))
    as [[]|e0] eqn:Hsettle_auto.
  - destruct (settle (backend (trace w0 ++ _) (POST_users_onboarding _ _ _)))
      as [[]|e1] eqn:Hsettle_write.
    + (* both calls succeed *)
      eexists. split.
      { rewrite Hcases.
        unfold try_finally, try_catch, App.handleOnboardingComplete, bind,
          App.setShowOnboarding, App.setHasProfile,
          OnboardingForm.setIsLoading.
        rewrite !emit_run, !after_after. simpl app. reflexivity. }
      split.
      { split; [intros _; by rewrite Hauto|].
        intros _. eexists _, _, _. simpl. eauto. }
      intros e Hfail. exfalso.
      inversion Hfail as [e' w1 Hcall|w1 e' w2 Hcall Hcall2]; subst.
      * rewrite Hauto in Hcall. discriminate Hcall.
      * rewrite Hauto in Hcall. injection Hcall as <-.
        rewrite Hwrite in Hcall2. discriminate Hcall2.
    + (* the combined write fails *)
      eexists. split; [by rewrite Hcases|].
      split.
      { split; [intros _; by rewrite Hauto|].
        intros _. eexists _, _, _. simpl. eauto. }
      intros e Hfail.
      assert (e = e1) as ->.
      { inversion Hfail as [e' w1 Hcall|w1 e' w2 Hcall Hcall2]; subst.
        - rewrite Hauto in Hcall. discriminate Hcall.
        - rewrite Hauto in Hcall. injection Hcall as <-.
          rewrite Hwrite in Hcall2. by injection Hcall2. }
      split; [reflexivity|]. split; [reflexivity|].
      split; [intros Hno; exact Hno|].
      intros onComplete. by rewrite Hcases.
  - (* auto-create fails *)
    eexists. split; [by rewrite Hcases|].
    split.
    { split.
      - intros (h & p & q & Hin). simpl in Hin.
        intuition discriminate.
      - rewrite Hauto. discriminate. }
    intros e Hfail.
    assert (e = e0) as ->.
    { inversion Hfail as [e' w1 Hcall|w1 e' w2 Hcall Hcall2]; subst;
        rewrite Hauto in Hcall; [by injection Hcall|discriminate Hcall]. }
    split; [reflexivity|]. split; [reflexivity|].
    split; [intros Hno; exact Hno|].
    intros onComplete. by rewrite Hcases.
Qed.

(** ** Sign-up form *)

Section SignUpFacts.
Variable backend : Backend.

(** The submit handler of the sign-up form, case by case on the two
    local checks and on what the backend answers. *)
Lemma signup_handleSubmit_cases email password confirmPassword name w :
  SignUpForm.handleSubmit backend email password confirmPassword name w =
  let cleared := [SetError TheSignUpForm ""; SetSuccess TheSignUpForm ""] in
  if negb (String.eqb password confirmPassword) then
    (Return tt,
     after w (cleared ++ [SetError TheSignUpForm "Passwords do not match"]))
  else if String.length password <? 8 then
    (Return tt,
     after w (cleared ++
       [SetError TheSignUpForm
          "Password must be at least 8 characters long"]))
  else
    let started := cleared ++ [SetFormLoading TheSignUpForm true] in
    let signup := POST_auth_signup email password (or_undefined name) in
    match settle (backend (trace w ++ started) signup) with
    | Return _ =>
        (Return tt,
         after w (started ++
           [Fetch signup;
            SetSuccess TheSignUpForm
              "Account created successfully! Redirecting to email confirmation...";
            SetTimeout (Call_onSignUpSuccess email) 1500;
            SetFormLoading TheSignUpForm false]))
    | Throw e =>
        (Return tt,
         after w (started ++
           [Fetch signup; ConsoleError "Sign up error:" e;
            SetError TheSignUpForm (message e);
            SetFormLoading TheSignUpForm false]))
    end.
Proof.
  cbv zeta.
  unfold SignUpForm.handleSubmit, bind at 1 2.
  unfold SignUpForm.setError at 1, SignUpForm.setSuccess at 1.
  rewrite !emit_run, after_after.
  destruct (negb (String.eqb password confirmPassword)).
  { unfold SignUpForm.setError. by rewrite emit_run, after_after. }
  destruct (String.length password <? 8).
  { unfold SignUpForm.setError. by rewrite emit_run, after_after. }
  unfold bind at 1. unfold SignUpForm.setIsLoading at 1.
  rewrite emit_run, after_after.
  unfold try_finally, try_catch at 1, bind at 1.
  unfold AuthProvider.signUp, try_catch.
  rewrite signUp_run.
  change (trace (after w ?l)) with (trace w ++ l).
  destruct (settle (backend (trace w ++ _) (POST_auth_signup _ _ _)))
    as [[]|e].
  - unfold bind, SignUpForm.setSuccess, SignUpForm.setIsLoading.
    by rewrite !emit_run, !after_after, <- !app_assoc.
  - unfold bind, console_error, throw, SignUpForm.setError,
      SignUpForm.setIsLoading.
    by rewrite !emit_run, !after_after, <- !app_assoc.
Qed.
End SignUpFacts.

(** C10. The sign-up form checks its fields before it calls the backend.
    When the two passwords differ, or the password has fewer than 8
    characters, no request is sent and the form shows "Passwords do not
    match" (when they differ) or "Password must be at least 8 characters
    long" (when they agree).  A request is sent only when both checks pass,
    and then it is the sign-up request for the entered values. *)
Theorem signUpForm_validates_before_backend
    (backend : Backend) (email password confirmPassword name : string)
    (w : World) :
  exists evs,
    SignUpForm.handleSubmit backend email password confirmPassword name w =
      (Return tt, after w evs) /\
    (password <> confirmPassword \/ String.length password < 8 ->
       (forall r, ~ In (Fetch r) evs) /\
       form_error (signUpForm (state (after w evs))) =
         (if decide (password = confirmPassword)
          then "Password must be at least 8 characters long"
          else "Passwords do not match")) /\
    ((exists r, In (Fetch r) evs) ->
       password = confirmPassword /\ 8 <= String.length password) /\
    (password = confirmPassword /\ 8 <= String.length password ->
       forall r, In (Fetch r) evs <->
         r = POST_auth_signup email password (or_undefined name)).
Proof.
  rewrite signup_handleSubmit_cases. cbv zeta.
  destruct (String.eqb_spec password confirmPassword) as [Heq|Hne]; simpl negb;
    cbv iota.
  - destruct (Nat.ltb_spec (String.length password) 8) as [Hshort|Hlong].
    + eexists. split; [reflexivity|]. split; [|split].
      * intros _. split.
        -- intros r Hin. simpl in Hin. intuition discriminate.
        -- by rewrite decide_True.
      * intros (r & Hin). simpl in Hin. intuition discriminate.
      * intros [_ Hlen]. lia.
    + destruct (settle (backend (trace w ++ _) (POST_auth_signup _ _ _)))
        as [[]|e].
      * eexists. split; [reflexivity|]. split; [|split].
        -- intros [Hne|Hshort]; [done|lia].
        -- auto.
        -- intros _ r. simpl. split.
           ++ intros Hin. intuition (try discriminate). congruence.
           ++ intros ->. auto 10.
      * eexists. split; [reflexivity|]. split; [|split].
        -- intros [Hne|Hshort]; [done|lia].
        -- auto.
        -- intros _ r. simpl. split.
           ++ intros Hin. intuition (try discriminate). congruence.
           ++ intros ->. auto 10.
  - eexists. split; [reflexivity|]. split; [|split].
    + intros _. split.
      * intros r Hin. simpl in Hin. intuition discriminate.
      * by rewrite decide_False.
    + intros (r & Hin). simpl in Hin. intuition discriminate.
    + intros [Heq _]. done.
Qed.

(** ** The scenarios, run *)

(** A 500 without a structured body gives the generic message. *)
Example handleResponse_generic_message :
  settle (Scenario.respond (T := unit) 500 None Scenario.not_json) =
  Throw (Error "HTTP error! status: 500").
Proof. reflexivity. Qed.

(** A [detail] member is the message, whatever the status. *)
Example handleResponse_detail_message :
  settle (Scenario.respond (T := unit) 401 (Some "Invalid token")
            Scenario.not_json) =
  Throw (Error "Invalid token").
Proof. reflexivity. Qed.

(** Auto-create answers 500: the form shows the error, the combined write
    is not sent and the flow stays on the onboarding form without a
    profile. *)
Example onboarding_auto_create_500 :
  let w' := (OnboardingForm.handleSubmit Scenario.auto_create_500
               App.handleOnboardingComplete Scenario.fields
               Scenario.onboarding).2 in
  trace w' =
    [SetError TheOnboardingForm "";
     SetFormLoading TheOnboardingForm true;
     Fetch (POST_users_profile_auto_create (Some "Bearer at-0"));
     SetError TheOnboardingForm "HTTP error! status: 500";
     SetFormLoading TheOnboardingForm false] /\
  form_error (onboardingForm (state w')) = "HTTP error! status: 500" /\
  hasProfile (flow (state w')) = false /\
  App.AppContent (state w') = Some App.Onboarding.
Proof. cbv zeta. repeat split; reflexivity. Qed.

(** Both calls succeed: the callback runs and the main screen is next. *)
Example onboarding_completes :
  let w' := (OnboardingForm.handleSubmit Scenario.all_ok
               App.handleOnboardingComplete Scenario.fields
               Scenario.onboarding).2 in
  trace w' =
    [SetError TheOnboardingForm "";
     SetFormLoading TheOnboardingForm true;
     Fetch (POST_users_profile_auto_create (Some "Bearer at-0"));
     Fetch (POST_users_onboarding (Some "Bearer at-0")
              {| profile_name := Some "Alice"; profile_bio := None;
                 profile_location_name := Some "Toronto";
                 profile_location_lat := Some 43.5%float;
                 profile_location_lng := None |}
              {| preferred_pace := Some "moderate" |});
     SetShowOnboarding false; SetHasProfile true;
     SetFormLoading TheOnboardingForm false] /\
  hasProfile (flow (state w')) = true /\
  App.AppContent (state w') = Some App.Main.
Proof. cbv zeta. repeat split; reflexivity. Qed.

(** Start-up with stale tokens: the identity fetch fails, the refresh
    succeeds, the second identity fetch fails again, and the client ends
    signed out on the sign-in screen. *)
Example initializeAuth_stale_tokens :
  let w' := (AuthProvider.initializeAuth Scenario.me_401
               Scenario.signed_in).2 in
  filter is_fetch (trace w') =
    [Fetch (GET_auth_me (Some "Bearer at-0"));
     Fetch (POST_auth_refresh "rt-0");
     Fetch (GET_auth_me (Some "Bearer at-1"))] /\
  SessionStore_empty (state w') /\
  App.AppContent (state w') = Some App.SignIn.
Proof. cbv zeta. repeat split; reflexivity. Qed.

(** Differing passwords and a short password are refused locally. *)
Example signUp_passwords_differ :
  SignUpForm.handleSubmit Scenario.all_ok "a@b.com" "Passw0rd!" "Passw0rd?"
    "" Scenario.fresh =
  (Return tt,
   after Scenario.fresh
     [SetError TheSignUpForm ""; SetSuccess TheSignUpForm "";
      SetError TheSignUpForm "Passwords do not match"]).
Proof. reflexivity. Qed.

Example signUp_password_short :
  SignUpForm.handleSubmit Scenario.all_ok "a@b.com" "Passw0r" "Passw0r"
    "" Scenario.fresh =
  (Return tt,
   after Scenario.fresh
     [SetError TheSignUpForm ""; SetSuccess TheSignUpForm "";
      SetError TheSignUpForm "Password must be at least 8 characters long"]).
Proof. reflexivity. Qed.

(** A valid submission reaches the backend and registers the redirect;
    when the timer fires, the flow is on the confirmation screen. *)
Example signUp_then_confirm_screen :
  let w1 := (SignUpForm.handleSubmit Scenario.all_ok "a@b.com" "Passw0rd!"
               "Passw0rd!" "" Scenario.fresh).2 in
  let w2 := (App.run_callback (Call_onSignUpSuccess "a@b.com") w1).2 in
  filter is_fetch (trace w1) =
    [Fetch (POST_auth_signup "a@b.com" "Passw0rd!" None)] /\
  In (SetTimeout (Call_onSignUpSuccess "a@b.com") 1500) (trace w1) /\
  signUpEmail (flow (state w2)) = "a@b.com" /\
  App.AppContent (state w2) = Some App.ConfirmEmail.
Proof. cbv zeta. repeat split; try reflexivity. simpl. auto 10. Qed.

(** With the network down the sign-in is rejected with the error of
    [fetch] and nothing is stored. *)
Example signIn_offline :
  AuthProvider.signIn Scenario.offline "a@b.com" "Passw0rd!" Scenario.fresh =
  (Throw (TypeError "Failed to fetch"),
   after Scenario.fresh
     [Fetch (POST_auth_signin "a@b.com" "Passw0rd!");
      ConsoleError "Sign in error:" (TypeError "Failed to fetch")]).
Proof. reflexivity. Qed.

(** * Further properties of the client *)

(** ** The API client *)

Lemma ok_spec {T : Type} (response : Response T) :
  ok response = true <-> 200 <= status response <= 299.
Proof. unfold ok. rewrite andb_true_iff, !Nat.leb_le. done. Qed.

(** X1. [handleResponse] hands back a value exactly for a status from 200
    to 299 whose body parses, and the value is the parsed body; it never
    changes the world. *)
Theorem handleResponse_value_iff_ok
    {T : Type} (response : Response T) (w : World) (v : T) :
  (ApiService.handleResponse response w).2 = w /\
  ((ApiService.handleResponse response w).1 = Return v <->
   200 <= status response <= 299 /\ json response = Return v).
Proof.
  rewrite handleResponse_run. split; [reflexivity|].
  unfold settle. simpl fst. rewrite <- (ok_spec response).
  destruct (ok response).
  - split; [intros ->; by split|intros [_ ->]; reflexivity].
  - split; [|intros [? _]; discriminate].
    destruct (detail response) as [[d|]|e]; discriminate.
Qed.



(** ** The provider *)

(** The flow cells and the cells of the forms are out of reach of the
    events of the provider. *)
Lemma replay_session_events s evs :
  forallb session_event evs = true ->
  flow (replay s evs) = flow s /\
  signUpForm (replay s evs) = signUpForm s /\
  onboardingForm (replay s evs) = onboardingForm s.
Proof.
  revert s. induction evs as [|ev evs IH]; intros s Hall; [done|].
  simpl in Hall. apply andb_true_iff in Hall as [Hev Hall].
  change (replay s (ev :: evs)) with (replay (apply_event s ev) evs).
  destruct (IH (apply_event s ev) Hall) as (-> & -> & ->).
  by destruct ev.
Qed.

(** Events that do not write the store or the cells of the provider leave
    both as they are. *)
Lemma replay_keeps_session s evs :
  forallb (fun ev => negb (touches_session ev)) evs = true ->
  localStorage (replay s evs) = localStorage s /\
  auth (replay s evs) = auth s.
Proof.
  revert s. induction evs as [|ev evs IH]; intros s Hall; [done|].
  simpl in Hall. apply andb_true_iff in Hall as [Hev Hall].
  change (replay s (ev :: evs)) with (replay (apply_event s ev) evs).
  destruct (IH (apply_event s ev) Hall) as (-> & ->).
  destruct ev; try discriminate; try done.
  all: by destruct f.
Qed.

(** X3. When the token exchange of [signIn] fails, [signIn] rejects with
    that error and nothing has changed: no token is written, the user and
    every cell are as before, and the one request is not repeated. *)
Theorem signIn_exchange_failure_changes_nothing
    (backend : Backend) (email password : string) (w w1 : World)
    (error : JsError) :
  ApiService.signIn backend email password w = (Throw error, w1) ->
  exists w',
    AuthProvider.signIn backend email password w = (Throw error, w') /\
    state w' = state w /\
    trace w' = trace w ++
      [Fetch (POST_auth_signin email password);
       ConsoleError "Sign in error:" error].
Proof.
  intros Hexchange. rewrite signIn_run in Hexchange.
  injection Hexchange as Hsettle _.
  rewrite signIn_cases. cbv zeta. cbn [body_of] in *. rewrite Hsettle.
  eexists. split; [reflexivity|]. by split.
Qed.

Lemma signIn_exchange_failure_changes_nothing_witness :
  exists w',
    AuthProvider.signIn signin_401 "a@b.com" "wrong" Scenario.signed_in =
      (Throw (Error "Incorrect username or password"), w') /\
    state w' = state Scenario.signed_in /\
    trace w' = trace Scenario.signed_in ++
      [Fetch (POST_auth_signin "a@b.com" "wrong");
       ConsoleError "Sign in error:"
         (Error "Incorrect username or password")].
Proof.
  eapply (signIn_exchange_failure_changes_nothing
            signin_401 "a@b.com" "wrong" Scenario.signed_in).
  reflexivity.
Defined.

(** X4. [signUp] of the provider changes no state at all: it sends the one
    sign-up request and completes as the API call does, with the same value
    or the same error. *)
Theorem signUp_changes_no_state
    (backend : Backend) (email password : string) (name : option string)
    (w : World) :
  (AuthProvider.signUp backend email password name w).1 =
    (ApiService.signUp backend email password name w).1 /\
  state (AuthProvider.signUp backend email password name w).2 = state w /\
  filter is_fetch
    (drop (length (trace w))
       (trace (AuthProvider.signUp backend email password name w).2)) =
    [Fetch (POST_auth_signup email password name)].
Proof.
  unfold AuthProvider.signUp, try_catch. rewrite signUp_run.
  destruct (settle (backend (trace w) (POST_auth_signup email password name)))
    as [[]|e].
  - split; [reflexivity|]. split; [reflexivity|].
    simpl trace. by rewrite drop_app_length.
  - unfold bind, console_error, throw. rewrite emit_run, after_after.
    split; [reflexivity|]. split; [reflexivity|].
    simpl trace. by rewrite drop_app_length.
Qed.

(** X5. Round trip through the store: after [saveTokens] both tokens read
    back as saved, the next authenticated request carries
    "Bearer <access token>" (no header for an empty token), every other
    key of [localStorage] is as before and so are the cells of the
    provider. *)
Theorem saveTokens_then_read (authResponse : AuthResponse) (w : World) :
  let w' := (AuthProvider.saveTokens authResponse w).2 in
  readAccessToken (state w') = Some (access_token authResponse) /\
  readRefreshToken (state w') = Some (refresh_token authResponse) /\
  ApiService.getAuthHeaders w' =
    (Return (if truthy (access_token authResponse)
             then Some ("Bearer " +:+ access_token authResponse)
             else None), w') /\
  (forall k, k <> "access_token" -> k <> "refresh_token" ->
     localStorage (state w') !! k = localStorage (state w) !! k) /\
  auth (state w') = auth (state w).
Proof.
  cbv zeta. rewrite saveTokens_run. simpl snd.
  assert (Haccess := readAccessToken_saved authResponse (state w)).
  split; [exact Haccess|].
  split; [apply (readRefreshToken_saved authResponse (state w))|].
  split.
  { rewrite getAuthHeaders_run.
    change (state (after w ?l)) with (replay (state w) l).
    by rewrite Haccess. }
  split; [|reflexivity].
  intros k Ha Hr. simpl.
  rewrite lookup_insert_ne by congruence.
  by rewrite lookup_insert_ne by congruence.
Qed.

(** X6. [signOut] takes the tokens and nothing else: every other key of
    [localStorage], the flow cells and [isLoading] are as before, and the
    next authenticated request, here the identity fetch, carries no
    [Authorization] header. *)
Theorem signOut_takes_only_the_session (backend : Backend) (w : World) :
  let w' := (AuthProvider.signOut w).2 in
  (forall k, k <> "access_token" -> k <> "refresh_token" ->
     localStorage (state w') !! k = localStorage (state w) !! k) /\
  flow (state w') = flow (state w) /\
  isLoading (auth (state w')) = isLoading (auth (state w)) /\
  ApiService.getAuthHeaders w' = (Return None, w') /\
  trace (ApiService.getCurrentUser backend w').2 =
    trace w' ++ [Fetch (GET_auth_me None)].
Proof.
  cbv zeta. rewrite signOut_run. simpl snd.
  assert (Hempty := SessionStore_empty_cleared (state w)).
  destruct Hempty as [Haccess _].
  split.
  { intros k Ha Hr. simpl.
    rewrite lookup_delete_ne by congruence.
    by rewrite lookup_delete_ne by congruence. }
  split; [reflexivity|]. split; [reflexivity|].
  rewrite getAuthHeaders_run, getCurrentUser_run.
  change (state (after w ?l)) with (replay (state w) l).
  by rewrite Haccess.
Qed.

Lemma refreshAuth_resolves (backend : Backend) w :
  AuthProvider.refreshAuth backend w =
  (Return tt, (AuthProvider.refreshAuth backend w).2).
Proof.
  rewrite refreshAuth_cases. unfold refresh_caught. cbv zeta.
  destruct (readRefreshToken (state w)) as [t|]; [|done].
  destruct (truthy t); [|done].
  destruct (settle (backend (trace w) (POST_auth_refresh t)))
    as [authResponse|e]; [|done].
  by destruct (settle (backend (trace w ++ _) (GET_auth_me _))).
Qed.

(** The mount effect, case by case on the store and on the first identity
    fetch. *)
Lemma initializeAuth_cases (backend : Backend) w :
  AuthProvider.initializeAuth backend w =
  match readAccessToken (state w) with
  | Some t =>
      if truthy t then
        let me := GET_auth_me (Some ("Bearer " +:+ t)) in
        match settle (backend (trace w) me) with
        | Return userInfo =>
            (Return tt,
             after w [Fetch me; SetUser (Some userInfo); SetIsLoading false])
        | Throw e =>
            (Return tt,
             after (AuthProvider.refreshAuth backend
                      (after w [Fetch me;
                                ConsoleError "Auth initialization error:" e])).2
               [SetIsLoading false])
        end
      else (Return tt, after w [SetIsLoading false])
  | None => (Return tt, after w [SetIsLoading false])
  end.
Proof.
  unfold AuthProvider.initializeAuth, try_finally, try_catch, bind at 1.
  unfold localStorage_getItem, bind at 1, get_state, ret at 1.
  fold (readAccessToken (state w)).
  destruct (readAccessToken (state w)) as [t|] eqn:Htoken; [|done].
  destruct (truthy t) eqn:Htruthy; [|done].
  unfold bind at 1. rewrite getCurrentUser_run, Htoken.
  unfold bearer. rewrite Htruthy.
  destruct (settle (backend (trace w) (GET_auth_me _))) as [userInfo|e].
  - unfold AuthProvider.setUser, AuthProvider.setIsLoading.
    by rewrite !emit_run, !after_after.
  - unfold bind at 1, console_error. rewrite emit_run, after_after.
    rewrite refreshAuth_resolves.
    unfold AuthProvider.setIsLoading. by rewrite emit_run.
Qed.

(** The events of [refreshAuth]: all of them are events of the provider,
    at most two are requests and at most one is a refresh request. *)
Lemma refreshAuth_events (backend : Backend) w :
  exists evs,
    AuthProvider.refreshAuth backend w = (Return tt, after w evs) /\
    forallb session_event evs = true /\
    length (filter is_fetch evs) <= 2 /\
    length (filter is_refresh_request evs) <= 1 /\
    (forall e, ~ In (ConsoleError "Token refresh failed:" e) evs) /\
    (AuthProvider.isAuthenticated (replay (state w) evs) = false ->
     SessionStore_empty (replay (state w) evs)) /\
    (AuthProvider.isAuthenticated (replay (state w) evs) = true ->
     is_Some (readAccessToken (replay (state w) evs)) \/
     user (auth (replay (state w) evs)) = user (auth (state w))).
Proof.
  rewrite refreshAuth_cases. unfold refresh_caught. cbv zeta.
  assert (Hcleared : forall evs,
    SessionStore_empty
      (replay (state w)
         (evs ++ [RemoveItem "access_token"; RemoveItem "refresh_token";
                  SetUser None]))).
  { intros evs. unfold replay. rewrite fold_left_app.
    apply SessionStore_empty_cleared. }
  assert (Hcaught : forall pre e0,
    forallb session_event pre = true ->
    length (filter is_fetch pre) <= 2 ->
    length (filter is_refresh_request pre) <= 1 ->
    (forall e, ~ In (ConsoleError "Token refresh failed:" e) pre) ->
    let evs := pre ++ [ConsoleError "Token refresh error:" e0;
                       RemoveItem "access_token";
                       RemoveItem "refresh_token"; SetUser None] in
    forallb session_event evs = true /\
    length (filter is_fetch evs) <= 2 /\
    length (filter is_refresh_request evs) <= 1 /\
    (forall e, ~ In (ConsoleError "Token refresh failed:" e) evs) /\
    (AuthProvider.isAuthenticated (replay (state w) evs) = false ->
     SessionStore_empty (replay (state w) evs)) /\
    (AuthProvider.isAuthenticated (replay (state w) evs) = true ->
     is_Some (readAccessToken (replay (state w) evs)) \/
     user (auth (replay (state w) evs)) = user (auth (state w)))).
  { intros pre e0 Hsession Hfetch Hrefresh Hnolog. cbv zeta.
    split; [by rewrite forallb_app, Hsession|].
    split; [rewrite filter_app, length_app; simpl; lia|].
    split; [rewrite filter_app, length_app; simpl; lia|].
    split.
    { intros e Hin. rewrite in_app_iff in Hin. simpl in Hin.
      destruct Hin as [Hin|Hin];
        [by apply (Hnolog e)|intuition discriminate]. }
    split.
    { intros _.
      replace (pre ++ [ConsoleError "Token refresh error:" e0;
                       RemoveItem "access_token";
                       RemoveItem "refresh_token"; SetUser None])
        with ((pre ++ [ConsoleError "Token refresh error:" e0]) ++
              [RemoveItem "access_token"; RemoveItem "refresh_token";
               SetUser None])
        by (by rewrite <- app_assoc).
      apply Hcleared. }
    intros Hauth. exfalso. unfold replay in Hauth.
    rewrite fold_left_app in Hauth. discriminate. }
  destruct (readRefreshToken (state w)) as [t|].
  2: { eexists. split; [reflexivity|]. apply (Hcaught []); simpl;
         solve [reflexivity | lia | tauto | intros e; intuition discriminate]. }
  destruct (truthy t).
  2: { eexists. split; [reflexivity|]. apply (Hcaught []); simpl;
         solve [reflexivity | lia | tauto | intros e; intuition discriminate]. }
  destruct (settle (backend (trace w) (POST_auth_refresh t)))
    as [authResponse|e0].
  2: { eexists. split; [reflexivity|]. apply (Hcaught [_]); simpl;
         solve [reflexivity | lia | tauto | intros e; intuition discriminate]. }
  destruct (settle (backend (trace w ++ _) (GET_auth_me _)))
    as [userInfo|e1].
  - eexists. split; [reflexivity|].
    split; [reflexivity|]. split; [simpl; lia|]. split; [simpl; lia|].
    split; [intros e Hin; simpl in Hin; intuition discriminate|].
    split; [intros Hauth; discriminate|].
    intros _. left. unfold readAccessToken. simpl.
    rewrite lookup_insert_ne by done. rewrite lookup_insert_eq. eauto.
  - eexists. split; [reflexivity|].
    apply (Hcaught [_; _; _; _]); simpl;
      solve [reflexivity | lia | tauto | intros e; intuition discriminate].
Qed.

(** X7. The mount effect always completes and always ends with
    [isLoading] cleared.  It sends at most three requests, of which at most
    one is a refresh request, and it never reaches its inner [catch]:
    "Token refresh failed:" is never logged. *)
Theorem initializeAuth_always_finishes (backend : Backend) (w : World) :
  exists evs,
    AuthProvider.initializeAuth backend w = (Return tt, after w evs) /\
    isLoading (auth (state (after w evs))) = false /\
    length (filter is_fetch evs) <= 3 /\
    length (filter is_refresh_request evs) <= 1 /\
    (forall e, ~ In (ConsoleError "Token refresh failed:" e) evs) /\
    flow (state (after w evs)) = flow (state w).
Proof.
  rewrite initializeAuth_cases.
  destruct (readAccessToken (state w)) as [t|].
  2: { eexists. split; [reflexivity|]. simpl.
       repeat split; try lia. intros e. intuition discriminate. }
  destruct (truthy t).
  2: { eexists. split; [reflexivity|]. simpl.
       repeat split; try lia. intros e. intuition discriminate. }
  cbv zeta.
  destruct (settle (backend (trace w) (GET_auth_me _))) as [userInfo|e0].
  { eexists. split; [reflexivity|]. simpl.
    repeat split; try lia. intros e. intuition discriminate. }
  destruct (refreshAuth_events backend
    (after w [Fetch (GET_auth_me (Some ("Bearer " +:+ t)));
              ConsoleError "Auth initialization error:" e0]))
    as (evs & Hrun & Hsession & Hfetch & Hrefresh & Hnolog & _).
  rewrite Hrun. simpl snd. rewrite !after_after.
  eexists. split; [reflexivity|].
  split.
  { simpl state. unfold replay. by rewrite !fold_left_app. }
  split.
  { rewrite !filter_app, !length_app. simpl. lia. }
  split.
  { rewrite !filter_app, !length_app. simpl. lia. }
  split.
  { intros e Hin. rewrite !in_app_iff in Hin. simpl in Hin.
    assert (Hno := Hnolog e). intuition discriminate. }
  simpl state. apply replay_session_events.
  rewrite !forallb_app, Hsession. reflexivity.
Qed.

(** X8. Without a usable access token (none stored, or an empty one) the
    mount effect contacts nobody: it clears [isLoading] and changes nothing
    else, the stored refresh token included. *)
Theorem initializeAuth_without_token (backend : Backend) (w : World) :
  bearer (readAccessToken (state w)) = None ->
  AuthProvider.initializeAuth backend w =
    (Return tt, after w [SetIsLoading false]) /\
  localStorage (state (after w [SetIsLoading false])) =
    localStorage (state w) /\
  user (auth (state (after w [SetIsLoading false]))) =
    user (auth (state w)).
Proof.
  intros Hnone. rewrite initializeAuth_cases. unfold bearer in Hnone.
  destruct (readAccessToken (state w)) as [t|]; [|done].
  destruct (truthy t); [discriminate|done].
Qed.

Lemma initializeAuth_without_token_witness :
  AuthProvider.initializeAuth Scenario.all_ok Scenario.fresh =
    (Return tt, after Scenario.fresh [SetIsLoading false]) /\
  localStorage (state (after Scenario.fresh [SetIsLoading false])) =
    localStorage (state Scenario.fresh) /\
  user (auth (state (after Scenario.fresh [SetIsLoading false]))) =
    user (auth (state Scenario.fresh)).
Proof.
  apply (initializeAuth_without_token Scenario.all_ok Scenario.fresh).
  reflexivity.
Defined.

(** X9. After the mount effect of a client that starts with no user, a
    user is set only with an access token in the store; and a client that
    had a usable access token and ends without a user has an empty
    store. *)
Theorem initializeAuth_session_consistent (backend : Backend) (w : World) :
  user (auth (state w)) = None ->
  let w' := (AuthProvider.initializeAuth backend w).2 in
  (AuthProvider.isAuthenticated (state w') = true ->
   is_Some (readAccessToken (state w'))) /\
  (is_Some (bearer (readAccessToken (state w))) ->
   AuthProvider.isAuthenticated (state w') = false ->
   SessionStore_empty (state w')).
Proof.
  intros Huser. cbv zeta. rewrite initializeAuth_cases.
  unfold AuthProvider.isAuthenticated, bearer.
  destruct (readAccessToken (state w)) as [t|] eqn:Htoken.
  2: { simpl. rewrite Huser. split; [discriminate|].
       intros [? ?]; discriminate. }
  destruct (truthy t) eqn:Htruthy.
  2: { simpl. rewrite Huser. split; [discriminate|].
       intros [? ?]; discriminate. }
  cbv zeta.
  destruct (settle (backend (trace w) (GET_auth_me _))) as [userInfo|e0].
  { simpl. split; [|discriminate].
    intros _. unfold readAccessToken in *. simpl. rewrite Htoken. eauto. }
  destruct (refreshAuth_events backend
    (after w [Fetch (GET_auth_me (Some ("Bearer " +:+ t)));
              ConsoleError "Auth initialization error:" e0]))
    as (evs & Hrun & _ & _ & _ & _ & Hout & Hin).
  rewrite Hrun. simpl snd.
  change (state (after (after ?x ?l1) ?l2))
    with (apply_event (replay (state x) l1) (SetIsLoading false)).
  change (state (after w ?l)) with (state w) in *.
  unfold AuthProvider.isAuthenticated in *.
  unfold SessionStore_empty, readAccessToken, readRefreshToken in *.
  simpl. split.
  - intros Hauth. destruct (Hin Hauth) as [Hsome|Hsame]; [exact Hsome|].
    rewrite Hsame, Huser in Hauth. discriminate.
  - intros _ Hauth. exact (Hout Hauth).
Qed.

Lemma initializeAuth_session_consistent_witness :
  let w' := (AuthProvider.initializeAuth Scenario.me_401
               {| state := with_auth (fun a =>
                    {| user := None; isLoading := true |})
                    (state Scenario.signed_in);
                  trace := [] |}).2 in
  (AuthProvider.isAuthenticated (state w') = true ->
   is_Some (readAccessToken (state w'))) /\
  (is_Some (bearer (readAccessToken
      (with_auth (fun a => {| user := None; isLoading := true |})
         (state Scenario.signed_in)))) ->
   AuthProvider.isAuthenticated (state w') = false ->
   SessionStore_empty (state w')).
Proof.
  apply (initializeAuth_session_consistent Scenario.me_401
           {| state := with_auth (fun a =>
                {| user := None; isLoading := true |})
                (state Scenario.signed_in);
              trace := [] |}).
  reflexivity.
Defined.

(** X10. A refresh that goes through sends the stored refresh token,
    replaces both stored tokens by the new pair, fetches the identity with
    the new access token and not the old one, and sets the user. *)
Theorem refreshAuth_success_replaces_tokens
    (backend : Backend) (w w1 w2 w3 : World) (t : string)
    (authResponse : AuthResponse) (userInfo : UserInfo) :
  readRefreshToken (state w) = Some t ->
  truthy t = true ->
  ApiService.refreshToken backend t w = (Return authResponse, w1) ->
  AuthProvider.saveTokens authResponse w1 = (Return tt, w2) ->
  ApiService.getCurrentUser backend w2 = (Return userInfo, w3) ->
  exists w',
    AuthProvider.refreshAuth backend w = (Return tt, w') /\
    readAccessToken (state w') = Some (access_token authResponse) /\
    readRefreshToken (state w') = Some (refresh_token authResponse) /\
    user (auth (state w')) = Some userInfo /\
    trace w' = trace w ++
      [Fetch (POST_auth_refresh t);
       SetItem "access_token" (access_token authResponse);
       SetItem "refresh_token" (refresh_token authResponse);
       Fetch (GET_auth_me (bearer (Some (access_token authResponse))));
       SetUser (Some userInfo)].
Proof.
  intros Htoken Htruthy Hrefresh Hsave Hme.
  rewrite refreshToken_run in Hrefresh. injection Hrefresh as Hsettle <-.
  rewrite saveTokens_run in Hsave. injection Hsave as <-.
  rewrite getCurrentUser_run in Hme. injection Hme as Hme _.
  replace (readAccessToken _) with (Some (access_token authResponse)) in Hme
    by (symmetry; apply (readAccessToken_saved authResponse (state w))).
  rewrite <- app_assoc in Hme. simpl app in Hme.
  rewrite refreshAuth_cases, Htoken, Htruthy. cbv zeta.
  cbn [body_of] in *. rewrite Hsettle, Hme.
  eexists. split; [reflexivity|].
  split; [apply (readAccessToken_saved authResponse
                   (replay (state w) [Fetch (POST_auth_refresh t)]))|].
  split; [apply (readRefreshToken_saved authResponse
                   (replay (state w) [Fetch (POST_auth_refresh t)]))|].
  by split.
Qed.

Lemma refreshAuth_success_replaces_tokens_witness :
  exists w',
    AuthProvider.refreshAuth Scenario.all_ok Scenario.signed_in =
      (Return tt, w') /\
    readAccessToken (state w') = Some "at-1" /\
    readRefreshToken (state w') = Some "rt-1" /\
    user (auth (state w')) = Some Scenario.alice /\
    trace w' = trace Scenario.signed_in ++
      [Fetch (POST_auth_refresh "rt-0");
       SetItem "access_token" "at-1";
       SetItem "refresh_token" "rt-1";
       Fetch (GET_auth_me (bearer (Some "at-1")));
       SetUser (Some Scenario.alice)].
Proof.
  eapply (refreshAuth_success_replaces_tokens
            Scenario.all_ok Scenario.signed_in _ _ _ "rt-0"
            Scenario.tokens Scenario.alice);
    reflexivity.
Defined.

Lemma signUp_state (backend : Backend) email password name w :
  state (AuthProvider.signUp backend email password name w).2 = state w.
Proof.
  unfold AuthProvider.signUp, try_catch. rewrite signUp_run.
  destruct (settle (backend (trace w) (POST_auth_signup email password name)))
    as [[]|e]; [done|].
  unfold bind, console_error, throw. by rewrite emit_run, after_after.
Qed.

(** X11. No operation of the provider writes a flow cell or a cell of a
    form: [signIn], [signUp], [signOut] and [refreshAuth] leave
    [showSignUp], [showConfirmEmail], [showOnboarding], [hasProfile] and
    [signUpEmail] as they are, whatever the backend answers. *)
Theorem provider_leaves_flow
    (backend : Backend) (email password : string) (name : option string)
    (w : World) :
  let untouched (w' : World) :=
    flow (state w') = flow (state w) /\
    signUpForm (state w') = signUpForm (state w) /\
    onboardingForm (state w') = onboardingForm (state w) in
  untouched (AuthProvider.signIn backend email password w).2 /\
  untouched (AuthProvider.signUp backend email password name w).2 /\
  untouched (AuthProvider.signOut w).2 /\
  untouched (AuthProvider.refreshAuth backend w).2.
Proof.
  cbv zeta. split; [|split; [|split]].
  - rewrite signIn_cases. cbv zeta.
    destruct (settle (backend (trace w) (POST_auth_signin email password)))
      as [authResponse|e]; [|done].
    by destruct (settle (backend (trace w ++ _) (GET_auth_me _))).
  - by rewrite signUp_state.
  - by rewrite signOut_run.
  - destruct (refreshAuth_events backend w) as (evs & -> & Hsession & _).
    by apply replay_session_events.
Qed.

(** ** The profile probe *)

(** [checkProfile], case by case. *)
Lemma checkProfile_cases (backend : Backend) w :
  App.checkProfile backend w =
  if AuthProvider.isAuthenticated (state w) then
    let probe := GET_users_profile (bearer (readAccessToken (state w))) in
    match settle (backend (trace w) probe) with
    | Return _ => (Return tt, after w [Fetch probe; SetHasProfile true])
    | Throw _ => (Return tt, after w [Fetch probe; SetHasProfile false])
    end
  else (Return tt, w).
Proof.
  unfold App.checkProfile, bind at 1, get_state.
  destruct (AuthProvider.isAuthenticated (state w)); [|done].
  unfold try_catch, bind at 1, ApiService.getUserProfile, bind at 1.
  rewrite getAuthHeaders_run.
  rewrite (call_run backend (GET_users_profile _) w).
  cbv zeta.
  destruct (settle (backend (trace w) (GET_users_profile _))) as [[]|e];
    unfold App.setHasProfile; by rewrite emit_run, after_after.
Qed.

Lemma getUserProfile_run (backend : Backend) w :
  ApiService.getUserProfile backend w =
  (settle (backend (trace w)
     (GET_users_profile (bearer (readAccessToken (state w))))),
   after w [Fetch (GET_users_profile (bearer (readAccessToken (state w))))]).
Proof.
  unfold ApiService.getUserProfile, bind at 1.
  rewrite getAuthHeaders_run.
  exact (call_run backend (GET_users_profile _) w).
Qed.

(** The state after the probe of a signed-in user. *)
Lemma checkProfile_signed_in (backend : Backend) w :
  AuthProvider.isAuthenticated (state w) = true ->
  state (App.checkProfile backend w).2 =
  apply_event (state w)
    (SetHasProfile
       match (ApiService.getUserProfile backend w).1 with
       | Return _ => true
       | Throw _ => false
       end).
Proof.
  intros Hauth. rewrite checkProfile_cases, Hauth, getUserProfile_run.
  cbv zeta. cbn [fst].
  destruct (settle (backend (trace w) (GET_users_profile _))) as [[]|e];
    reflexivity.
Qed.

(** X12. The profile probe never fails.  Signed out it does nothing and
    sends nothing.  Signed in it sends one profile request and sets
    [hasProfile] to whether that request succeeded: every failure, a 404
    as much as a network error, reads as "no profile".  It touches no
    other cell and never the store. *)
Theorem checkProfile_sets_hasProfile (backend : Backend) (w : World) :
  let w' := (App.checkProfile backend w).2 in
  (App.checkProfile backend w).1 = Return tt /\
  (AuthProvider.isAuthenticated (state w) = false -> w' = w) /\
  (AuthProvider.isAuthenticated (state w) = true ->
   hasProfile (flow (state w')) =
     match (ApiService.getUserProfile backend w).1 with
     | Return _ => true
     | Throw _ => false
     end /\
   filter is_fetch (drop (length (trace w)) (trace w')) =
     [Fetch (GET_users_profile (bearer (readAccessToken (state w))))] /\
   showSignUp (flow (state w')) = showSignUp (flow (state w)) /\
   showOnboarding (flow (state w')) = showOnboarding (flow (state w)) /\
   showConfirmEmail (flow (state w')) = showConfirmEmail (flow (state w)) /\
   localStorage (state w') = localStorage (state w) /\
   auth (state w') = auth (state w)).
Proof.
  cbv zeta. rewrite checkProfile_cases.
  rewrite getUserProfile_run. cbn [fst].
  destruct (AuthProvider.isAuthenticated (state w)).
  - cbv zeta.
    destruct (settle (backend (trace w) (GET_users_profile _))) as [[]|e].
    + split; [reflexivity|]. split; [discriminate|]. intros _.
      split; [reflexivity|].
      split; [simpl trace; by rewrite drop_app_length|]. done.
    + split; [reflexivity|]. split; [discriminate|]. intros _.
      split; [reflexivity|].
      split; [simpl trace; by rewrite drop_app_length|]. done.
  - split; [reflexivity|]. split; [done|discriminate].
Qed.

(** X13. For a signed-in user past the loading screen and not in the
    wizard, the probe decides the screen: the main screen when the profile
    request succeeded, the welcome gate when it failed. *)
Theorem checkProfile_decides_screen (backend : Backend) (w : World) :
  AuthProvider.isAuthenticated (state w) = true ->
  isLoading (auth (state w)) = false ->
  showOnboarding (flow (state w)) = false ->
  App.AppContent (state (App.checkProfile backend w).2) =
    Some (match (ApiService.getUserProfile backend w).1 with
          | Return _ => App.Main
          | Throw _ => App.WelcomeGate
          end).
Proof.
  intros Hauth Hloading Honboarding.
  rewrite (checkProfile_signed_in backend w Hauth).
  unfold App.AppContent, AuthProvider.isAuthenticated in *. simpl.
  rewrite Hloading, Honboarding, render_cases.
  destruct (user (auth (state w))); [|discriminate].
  by destruct (ApiService.getUserProfile backend w).1.
Qed.

Lemma checkProfile_decides_screen_witness :
  App.AppContent (state (App.checkProfile profile_404 Scenario.signed_in).2) =
    Some (match (ApiService.getUserProfile profile_404
                   Scenario.signed_in).1 with
          | Return _ => App.Main
          | Throw _ => App.WelcomeGate
          end).
Proof.
  apply (checkProfile_decides_screen profile_404 Scenario.signed_in);
    reflexivity.
Defined.

(** ** The sign-up form, after its checks *)

(** X14. A submission that passes the checks and that the backend accepts
    shows the success message, registers exactly one timer of 1500 ms for
    the entered email and changes no flow cell yet.  When the timer fires
    the flow holds that email, and a signed-out client past the loading
    screen is on the confirmation screen. *)
Theorem signUpForm_success_leads_to_confirmation
    (backend : Backend) (email password name : string) (w : World) :
  8 <= String.length password ->
  (ApiService.signUp backend email password (or_undefined name)
     (after w [SetError TheSignUpForm ""; SetSuccess TheSignUpForm "";
               SetFormLoading TheSignUpForm true])).1 = Return tt ->
  let w1 := (SignUpForm.handleSubmit backend email password password
               name w).2 in
  let w2 := (App.run_callback (Call_onSignUpSuccess email) w1).2 in
  filter is_timeout (drop (length (trace w)) (trace w1)) =
    [SetTimeout (Call_onSignUpSuccess email) 1500] /\
  form_success (signUpForm (state w1)) =
    "Account created successfully! Redirecting to email confirmation..." /\
  form_error (signUpForm (state w1)) = "" /\
  form_isLoading (signUpForm (state w1)) = false /\
  flow (state w1) = flow (state w) /\
  signUpEmail (flow (state w2)) = email /\
  showConfirmEmail (flow (state w2)) = true /\
  showSignUp (flow (state w2)) = false /\
  (isLoading (auth (state w)) = false ->
   AuthProvider.isAuthenticated (state w) = false ->
   App.AppContent (state w2) = Some App.ConfirmEmail).
Proof.
  intros Hlength Haccepted. cbv zeta.
  rewrite signup_handleSubmit_cases. cbv zeta.
  rewrite String.eqb_refl. simpl negb. cbv iota.
  destruct (Nat.ltb_spec (String.length password) 8) as [Hshort|_]; [lia|].
  rewrite signUp_run in Haccepted. cbn [fst] in Haccepted.
  change (trace (after w ?l)) with (trace w ++ l) in Haccepted.
  simpl app in *. cbn [body_of] in *. rewrite Haccepted. cbn [snd].
  split; [simpl trace; by rewrite drop_app_length|].
  do 4 (split; [reflexivity|]).
  do 3 (split; [reflexivity|]).
  intros Hloading Hauth.
  unfold App.AppContent, AuthProvider.isAuthenticated in *. simpl.
  rewrite Hloading, render_cases.
  by destruct (user (auth (state w))).
Qed.

Lemma signUpForm_success_leads_to_confirmation_witness :
  let w1 := (SignUpForm.handleSubmit Scenario.all_ok "a@b.com" "Passw0rd!"
               "Passw0rd!" "Al" Scenario.fresh).2 in
  let w2 := (App.run_callback (Call_onSignUpSuccess "a@b.com") w1).2 in
  filter is_timeout (drop (length (trace Scenario.fresh)) (trace w1)) =
    [SetTimeout (Call_onSignUpSuccess "a@b.com") 1500] /\
  form_success (signUpForm (state w1)) =
    "Account created successfully! Redirecting to email confirmation..." /\
  form_error (signUpForm (state w1)) = "" /\
  form_isLoading (signUpForm (state w1)) = false /\
  flow (state w1) = flow (state Scenario.fresh) /\
  signUpEmail (flow (state w2)) = "a@b.com" /\
  showConfirmEmail (flow (state w2)) = true /\
  showSignUp (flow (state w2)) = false /\
  (isLoading (auth (state Scenario.fresh)) = false ->
   AuthProvider.isAuthenticated (state Scenario.fresh) = false ->
   App.AppContent (state w2) = Some App.ConfirmEmail).
Proof.
  apply (signUpForm_success_leads_to_confirmation
           Scenario.all_ok "a@b.com" "Passw0rd!" "Al" Scenario.fresh).
  - simpl. lia.
  - reflexivity.
Defined.

(** X15. A submission that passes the checks and that the backend refuses
    shows the message of the backend's error, registers no timer, clears
    [isLoading] and leaves the flow, the store and the user alone: the
    form stays where it is. *)
Theorem signUpForm_backend_failure_stays
    (backend : Backend) (email password name : string) (w w1 : World)
    (error : JsError) :
  8 <= String.length password ->
  ApiService.signUp backend email password (or_undefined name)
    (after w [SetError TheSignUpForm ""; SetSuccess TheSignUpForm "";
              SetFormLoading TheSignUpForm true]) = (Throw error, w1) ->
  exists w',
    SignUpForm.handleSubmit backend email password password name w =
      (Return tt, w') /\
    form_error (signUpForm (state w')) = message error /\
    form_success (signUpForm (state w')) = "" /\
    form_isLoading (signUpForm (state w')) = false /\
    filter is_timeout (drop (length (trace w)) (trace w')) = [] /\
    flow (state w') = flow (state w) /\
    localStorage (state w') = localStorage (state w) /\
    auth (state w') = auth (state w).
Proof.
  intros Hlength Hrefused.
  rewrite signup_handleSubmit_cases. cbv zeta.
  rewrite String.eqb_refl. simpl negb. cbv iota.
  destruct (Nat.ltb_spec (String.length password) 8) as [Hshort|_]; [lia|].
  rewrite signUp_run in Hrefused. injection Hrefused as Hsettle _.
  change (trace (after w ?l)) with (trace w ++ l) in Hsettle.
  simpl app in *. cbn [body_of] in *. rewrite Hsettle.
  eexists. split; [reflexivity|].
  do 3 (split; [reflexivity|]).
  split; [simpl trace; by rewrite drop_app_length|].
  by repeat split.
Qed.

Lemma signUpForm_backend_failure_stays_witness :
  exists w',
    SignUpForm.handleSubmit signup_400 "a@b.com" "Passw0rd!" "Passw0rd!" ""
      Scenario.fresh = (Return tt, w') /\
    form_error (signUpForm (state w')) =
      message (Error "User already exists") /\
    form_success (signUpForm (state w')) = "" /\
    form_isLoading (signUpForm (state w')) = false /\
    filter is_timeout (drop (length (trace Scenario.fresh)) (trace w')) = [] /\
    flow (state w') = flow (state Scenario.fresh) /\
    localStorage (state w') = localStorage (state Scenario.fresh) /\
    auth (state w') = auth (state Scenario.fresh).
Proof.
  eapply (signUpForm_backend_failure_stays
            signup_400 "a@b.com" "Passw0rd!" "" Scenario.fresh).
  - simpl. lia.
  - reflexivity.
Defined.

(** ** The onboarding form, past its two calls *)

(** X16. [onComplete] runs inside the [try] block: when both calls succeed
    and the callback throws, the handler does not fail; it shows the
    message of that error and clears [isLoading]. *)
Theorem onboarding_callback_error_is_shown
    (backend : Backend) (onComplete : M unit) (f : OnboardingForm.Fields)
    (w w3 : World) (error : JsError) :
  let w0 := after w [SetError TheOnboardingForm "";
                     SetFormLoading TheOnboardingForm true] in
  let token := bearer (readAccessToken (state w)) in
  let auto := POST_users_profile_auto_create token in
  let write :=
    POST_users_onboarding token (profileData f) (preferencesData f) in
  (ApiService.autoCreateProfile backend w0).1 = Return tt ->
  (ApiService.completeOnboarding backend (profileData f) (preferencesData f)
     (after w0 [Fetch auto])).1 = Return tt ->
  onComplete (after w0 [Fetch auto; Fetch write]) = (Throw error, w3) ->
  OnboardingForm.handleSubmit backend onComplete f w =
    (Return tt,
     after w3 [SetError TheOnboardingForm (message error);
               SetFormLoading TheOnboardingForm false]).
Proof.
  cbv zeta. intros Hauto Hwrite Hcallback.
  rewrite autoCreateProfile_run in Hauto. cbn [fst] in Hauto.
  rewrite completeOnboarding_run in Hwrite. cbn [fst] in Hwrite.
  rewrite onboarding_handleSubmit_cases. cbv zeta.
  change (readAccessToken (state (after w ?l)))
    with (readAccessToken (state w)) in *.
  change (readAccessToken (state (after (after w ?l1) ?l2)))
    with (readAccessToken (state w)) in Hwrite.
  repeat progress change (trace (after ?x ?l)) with (trace x ++ l) in *.
  cbn [body_of] in *. rewrite Hauto, Hwrite.
  unfold try_finally, try_catch. rewrite Hcallback.
  unfold OnboardingForm.setError, OnboardingForm.setIsLoading.
  by rewrite !emit_run, !after_after.
Qed.

Lemma onboarding_callback_error_is_shown_witness :
  OnboardingForm.handleSubmit Scenario.all_ok (throw (Error "boom"))
    Scenario.fields Scenario.onboarding =
  (Return tt,
   after
     (after
        (after Scenario.onboarding
           [SetError TheOnboardingForm "";
            SetFormLoading TheOnboardingForm true])
        [Fetch (POST_users_profile_auto_create (Some "Bearer at-0"));
         Fetch (POST_users_onboarding (Some "Bearer at-0")
                  (profileData Scenario.fields)
                  (preferencesData Scenario.fields))])
     [SetError TheOnboardingForm (message (Error "boom"));
      SetFormLoading TheOnboardingForm false]).
Proof.
  apply (onboarding_callback_error_is_shown Scenario.all_ok
           (throw (Error "boom")) Scenario.fields Scenario.onboarding);
    reflexivity.
Defined.

(** X17. When both calls succeed, the combined write carried the payloads
    built from the fields together with the stored token, and the flow
    moves on: [hasProfile] is set, the wizard is left, no error is shown,
    and a signed-in client past the loading screen is on the main
    screen. *)
Theorem onboarding_success_leads_to_main
    (backend : Backend) (f : OnboardingForm.Fields) (w : World) :
  let w0 := after w [SetError TheOnboardingForm "";
                     SetFormLoading TheOnboardingForm true] in
  let token := bearer (readAccessToken (state w)) in
  let auto := POST_users_profile_auto_create token in
  let write :=
    POST_users_onboarding token (profileData f) (preferencesData f) in
  (ApiService.autoCreateProfile backend w0).1 = Return tt ->
  (ApiService.completeOnboarding backend (profileData f) (preferencesData f)
     (after w0 [Fetch auto])).1 = Return tt ->
  let w' := (OnboardingForm.handleSubmit backend
               App.handleOnboardingComplete f w).2 in
  filter is_fetch (drop (length (trace w)) (trace w')) =
    [Fetch auto; Fetch write] /\
  hasProfile (flow (state w')) = true /\
  showOnboarding (flow (state w')) = false /\
  form_error (onboardingForm (state w')) = "" /\
  form_isLoading (onboardingForm (state w')) = false /\
  (AuthProvider.isAuthenticated (state w) = true ->
   isLoading (auth (state w)) = false ->
   App.AppContent (state w') = Some App.Main).
Proof.
  cbv zeta. intros Hauto Hwrite.
  rewrite autoCreateProfile_run in Hauto. cbn [fst] in Hauto.
  rewrite completeOnboarding_run in Hwrite. cbn [fst] in Hwrite.
  rewrite onboarding_handleSubmit_cases. cbv zeta.
  change (readAccessToken (state (after w ?l)))
    with (readAccessToken (state w)) in *.
  change (readAccessToken (state (after (after w ?l1) ?l2)))
    with (readAccessToken (state w)) in Hwrite.
  repeat progress change (trace (after ?x ?l)) with (trace x ++ l) in *.
  cbn [body_of] in *. rewrite Hauto, Hwrite.
  unfold try_finally, try_catch, App.handleOnboardingComplete, bind,
    App.setShowOnboarding, App.setHasProfile, OnboardingForm.setIsLoading.
  rewrite !emit_run, !after_after. cbn [snd].
  split; [simpl trace; by rewrite drop_app_length|].
  do 4 (split; [reflexivity|]).
  intros Hauth Hloading.
  unfold App.AppContent, AuthProvider.isAuthenticated in *. simpl.
  rewrite Hloading, render_cases.
  by destruct (user (auth (state w))).
Qed.

Lemma onboarding_success_leads_to_main_witness :
  let w' := (OnboardingForm.handleSubmit Scenario.all_ok
               App.handleOnboardingComplete Scenario.fields
               Scenario.onboarding).2 in
  filter is_fetch (drop (length (trace Scenario.onboarding)) (trace w')) =
    [Fetch (POST_users_profile_auto_create
              (bearer (readAccessToken (state Scenario.onboarding))));
     Fetch (POST_users_onboarding
              (bearer (readAccessToken (state Scenario.onboarding)))
              (profileData Scenario.fields)
              (preferencesData Scenario.fields))] /\
  hasProfile (flow (state w')) = true /\
  showOnboarding (flow (state w')) = false /\
  form_error (onboardingForm (state w')) = "" /\
  form_isLoading (onboardingForm (state w')) = false /\
  (AuthProvider.isAuthenticated (state Scenario.onboarding) = true ->
   isLoading (auth (state Scenario.onboarding)) = false ->
   App.AppContent (state w') = Some App.Main).
Proof.
  apply (onboarding_success_leads_to_main Scenario.all_ok Scenario.fields
           Scenario.onboarding);
    reflexivity.
Defined.

(** ** The login form *)

(** The submit handler of the login form in terms of [signIn]. *)
Lemma loginForm_handleSubmit_run
    (backend : Backend) email password (cells : LoginForm.Cells) w :
  LoginForm.handleSubmit backend email password cells w =
  (Return tt,
   {| LoginForm.error :=
        match (AuthProvider.signIn backend email password w).1 with
        | Return _ => ""
        | Throw e => message e
        end;
      LoginForm.isLoading := false |},
   (AuthProvider.signIn backend email password w).2).
Proof.
  unfold LoginForm.handleSubmit, Local.lbind, Local.ltry_finally,
    Local.ltry_catch, Local.lift, LoginForm.setError,
    LoginForm.setIsLoading, Local.set_cells.
  by destruct (AuthProvider.signIn backend email password w) as [[[]|e] w'].
Qed.

(** X18. The submit handler of the login form never fails and always ends
    with [isLoading] cleared.  What it does to the world is what [signIn]
    does, and its error cell ends empty when [signIn] resolved and holding
    the message of the error when [signIn] rejected. *)
Theorem loginForm_submit_outcome
    (backend : Backend) (email password : string)
    (cells : LoginForm.Cells) (w : World) :
  exists cells',
    LoginForm.handleSubmit backend email password cells w =
      (Return tt, cells',
       (AuthProvider.signIn backend email password w).2) /\
    LoginForm.isLoading cells' = false /\
    (LoginForm.error cells' = "" <->
     (AuthProvider.signIn backend email password w).1 = Return tt \/
     exists e, (AuthProvider.signIn backend email password w).1 = Throw e /\
               message e = "") /\
    (forall e,
       (AuthProvider.signIn backend email password w).1 = Throw e ->
       LoginForm.error cells' = message e).
Proof.
  rewrite loginForm_handleSubmit_run. eexists. split; [reflexivity|].
  split; [reflexivity|]. simpl.
  destruct (AuthProvider.signIn backend email password w).1 as [[]|e0].
  - split; [by split; auto|discriminate].
  - split.
    + split; [intros Hempty; right; eauto|].
      intros [?|(e & [= <-] & Hempty)]; [discriminate|exact Hempty].
    + by intros e [= <-].
Qed.

(** X19. Refused credentials: when the token exchange fails, the login
    form shows the message of that error and the client is as it was, with
    no token written and no user set. *)
Theorem loginForm_refused_credentials
    (backend : Backend) (email password : string)
    (cells : LoginForm.Cells) (w w1 : World) (error : JsError) :
  ApiService.signIn backend email password w = (Throw error, w1) ->
  exists cells' w',
    LoginForm.handleSubmit backend email password cells w =
      (Return tt, cells', w') /\
    LoginForm.error cells' = message error /\
    LoginForm.isLoading cells' = false /\
    state w' = state w /\
    filter is_fetch (drop (length (trace w)) (trace w')) =
      [Fetch (POST_auth_signin email password)].
Proof.
  intros Hexchange. rewrite signIn_run in Hexchange.
  injection Hexchange as Hsettle _.
  rewrite loginForm_handleSubmit_run.
  rewrite signIn_cases. cbv zeta. cbn [body_of] in *. rewrite Hsettle.
  eexists _, _. split; [reflexivity|].
  do 3 (split; [reflexivity|]).
  simpl trace. by rewrite drop_app_length.
Qed.

Lemma loginForm_refused_credentials_witness :
  exists cells' w',
    LoginForm.handleSubmit signin_401 "a@b.com" "wrong" login_cells
      Scenario.fresh = (Return tt, cells', w') /\
    LoginForm.error cells' =
      message (Error "Incorrect username or password") /\
    LoginForm.isLoading cells' = false /\
    state w' = state Scenario.fresh /\
    filter is_fetch (drop (length (trace Scenario.fresh)) (trace w')) =
      [Fetch (POST_auth_signin "a@b.com" "wrong")].
Proof.
  eapply (loginForm_refused_credentials signin_401 "a@b.com" "wrong"
            login_cells Scenario.fresh).
  reflexivity.
Defined.

(** ** The confirmation form *)

Lemma trimStart_head s c rest :
  ConfirmEmailForm.trimStart s = String c rest ->
  ConfirmEmailForm.is_whitespace c = false.
Proof.
  induction s as [|a s IH]; simpl; [discriminate|].
  destruct (ConfirmEmailForm.is_whitespace a) eqn:Ha; [exact IH|].
  by intros [= <- _].
Qed.

Lemma trimEnd_keeps_head c rest :
  ConfirmEmailForm.is_whitespace c = false ->
  exists kept, ConfirmEmailForm.trimEnd (String c rest) = String c kept.
Proof.
  intros Hc. simpl. rewrite Hc.
  destruct (ConfirmEmailForm.trimEnd rest); eauto.
Qed.

Lemma trimEnd_last s c t :
  ConfirmEmailForm.is_whitespace c = true ->
  ConfirmEmailForm.trimEnd s <> t +:+ String c "".
Proof.
  intros Hc. revert t. induction s as [|a s IH]; intros t; simpl.
  { by destruct t. }
  destruct (ConfirmEmailForm.trimEnd s) as [|k kept] eqn:Hkept.
  - destruct (ConfirmEmailForm.is_whitespace a) eqn:Ha.
    + by destruct t.
    + destruct t as [|b t]; simpl.
      * intros [= ->]. congruence.
      * intros [= _ Hnil]. by destruct t.
  - destruct t as [|b t]; simpl.
    + discriminate.
    + intros [= _ Hrest]. by apply (IH t).
Qed.

(** [trim] gives the empty string exactly for strings of white space. *)
Lemma trim_blank_iff s :
  ConfirmEmailForm.trim s = "" <->
  forallb ConfirmEmailForm.is_whitespace (String.list_ascii_of_string s) =
    true.
Proof.
  unfold ConfirmEmailForm.trim. induction s as [|a s IH]; simpl; [done|].
  destruct (ConfirmEmailForm.is_whitespace a) eqn:Ha; simpl; [exact IH|].
  split; [|discriminate].
  destruct (ConfirmEmailForm.trimEnd s); [rewrite Ha|]; discriminate.
Qed.

(** No white space is left at either end of a trimmed string. *)
Lemma trim_ends s c t :
  ConfirmEmailForm.is_whitespace c = true ->
  ConfirmEmailForm.trim s <> String c t /\
  ConfirmEmailForm.trim s <> t +:+ String c "".
Proof.
  intros Hc. split; [|by apply trimEnd_last].
  unfold ConfirmEmailForm.trim.
  destruct (ConfirmEmailForm.trimStart s) as [|a rest] eqn:Hstart;
    [discriminate|].
  apply trimStart_head in Hstart.
  destruct (trimEnd_keeps_head a rest Hstart) as [kept ->].
  intros [= -> _]. congruence.
Qed.

Lemma confirmSignUp_run (backend : Backend) email code w :
  ApiService.confirmSignUp backend email code w =
  (settle (backend (trace w) (POST_auth_confirm_signup email code)),
   after w [Fetch (POST_auth_confirm_signup email code)]).
Proof. exact (call_run backend (POST_auth_confirm_signup email code) w). Qed.

(** X20. A confirmation code that is empty or made of white space only is
    refused by the form itself: "Please enter the confirmation code" is
    shown, the success text is cleared, nothing is sent, and [isLoading],
    [isResending] and the timers are left alone. *)
Theorem confirmForm_refuses_blank_code
    (backend : Backend) (email confirmationCode : string)
    (cells : ConfirmEmailForm.Cells) (w : World) :
  forallb ConfirmEmailForm.is_whitespace
    (String.list_ascii_of_string confirmationCode) = true ->
  ConfirmEmailForm.handleSubmit backend email confirmationCode cells w =
  (Return tt,
   {| ConfirmEmailForm.error := "Please enter the confirmation code";
      ConfirmEmailForm.success := "";
      ConfirmEmailForm.isLoading := ConfirmEmailForm.isLoading cells;
      ConfirmEmailForm.isResending := ConfirmEmailForm.isResending cells;
      ConfirmEmailForm.timers := ConfirmEmailForm.timers cells |},
   w).
Proof.
  intros Hblank. apply trim_blank_iff in Hblank.
  unfold ConfirmEmailForm.handleSubmit, Local.lbind. rewrite Hblank.
  reflexivity.
Qed.

Lemma confirmForm_refuses_blank_code_witness :
  ConfirmEmailForm.handleSubmit Scenario.all_ok "a@b.com" "   " confirm_cells
    Scenario.fresh =
  (Return tt,
   {| ConfirmEmailForm.error := "Please enter the confirmation code";
      ConfirmEmailForm.success := "";
      ConfirmEmailForm.isLoading := ConfirmEmailForm.isLoading confirm_cells;
      ConfirmEmailForm.isResending :=
        ConfirmEmailForm.isResending confirm_cells;
      ConfirmEmailForm.timers := ConfirmEmailForm.timers confirm_cells |},
   Scenario.fresh).
Proof.
  apply (confirmForm_refuses_blank_code Scenario.all_ok "a@b.com" "   "
           confirm_cells Scenario.fresh).
  reflexivity.
Defined.

(** X21. Any other code is sent once, trimmed: the code in the request has
    no white space at its start or end.  When the backend accepts it the
    form shows the success text and registers one timer of 2000 ms for
    [onConfirmed]; when it refuses, the form shows the message of the
    error and registers nothing.  Either way the handler does not fail,
    [isLoading] ends cleared and the state of the client is untouched. *)
Theorem confirmForm_sends_trimmed_code
    (backend : Backend) (email confirmationCode : string)
    (cells : ConfirmEmailForm.Cells) (w : World) :
  forallb ConfirmEmailForm.is_whitespace
    (String.list_ascii_of_string confirmationCode) = false ->
  let sent := ConfirmEmailForm.trim confirmationCode in
  (forall c t, ConfirmEmailForm.is_whitespace c = true ->
     sent <> String c t /\ sent <> t +:+ String c "") /\
  exists cells',
    ConfirmEmailForm.handleSubmit backend email confirmationCode cells w =
      (Return tt, cells',
       after w [Fetch (POST_auth_confirm_signup email sent)]) /\
    state (after w [Fetch (POST_auth_confirm_signup email sent)]) =
      state w /\
    ConfirmEmailForm.isLoading cells' = false /\
    ConfirmEmailForm.isResending cells' =
      ConfirmEmailForm.isResending cells /\
    match (ApiService.confirmSignUp backend email sent w).1 with
    | Return _ =>
        ConfirmEmailForm.error cells' = "" /\
        ConfirmEmailForm.success cells' =
          "Email confirmed successfully! You can now sign in." /\
        ConfirmEmailForm.timers cells' =
          ConfirmEmailForm.timers cells ++
          [(ConfirmEmailForm.Call_onConfirmed, 2000)]
    | Throw e =>
        ConfirmEmailForm.error cells' = message e /\
        ConfirmEmailForm.success cells' = "" /\
        ConfirmEmailForm.timers cells' = ConfirmEmailForm.timers cells
    end.
Proof.
  intros Hcode. cbv zeta.
  split; [intros c t Hc; by apply trim_ends|].
  assert (Hsent : truthy (ConfirmEmailForm.trim confirmationCode) = true).
  { destruct (ConfirmEmailForm.trim confirmationCode) eqn:Htrim; [|done].
    apply trim_blank_iff in Htrim. congruence. }
  unfold ConfirmEmailForm.handleSubmit, Local.lbind at 1 2.
  unfold ConfirmEmailForm.setError at 1, ConfirmEmailForm.setSuccess at 1,
    Local.set_cells at 1 2.
  rewrite Hsent. change (negb true) with false. cbv beta iota.
  unfold Local.lbind, Local.ltry_finally, Local.ltry_catch, Local.lift,
    ConfirmEmailForm.setError, ConfirmEmailForm.setSuccess,
    ConfirmEmailForm.setIsLoading, ConfirmEmailForm.setTimeout,
    Local.set_cells.
  cbv beta.
  assert (Hworld := confirmSignUp_run backend email
    (ConfirmEmailForm.trim confirmationCode) w).
  destruct (ApiService.confirmSignUp backend email
              (ConfirmEmailForm.trim confirmationCode) w)
    as [[[]|e] w'].
  - injection Hworld as _ ->. eexists. split; [reflexivity|].
    by repeat split.
  - injection Hworld as _ ->. eexists. split; [reflexivity|].
    by repeat split.
Qed.

Lemma confirmForm_sends_trimmed_code_witness :
  let sent := ConfirmEmailForm.trim " 123456 " in
  (forall c t, ConfirmEmailForm.is_whitespace c = true ->
     sent <> String c t /\ sent <> t +:+ String c "") /\
  exists cells',
    ConfirmEmailForm.handleSubmit confirm_400 "a@b.com" " 123456 "
      confirm_cells Scenario.fresh =
      (Return tt, cells',
       after Scenario.fresh [Fetch (POST_auth_confirm_signup "a@b.com" sent)])
    /\
    state (after Scenario.fresh
             [Fetch (POST_auth_confirm_signup "a@b.com" sent)]) =
      state Scenario.fresh /\
    ConfirmEmailForm.isLoading cells' = false /\
    ConfirmEmailForm.isResending cells' =
      ConfirmEmailForm.isResending confirm_cells /\
    match (ApiService.confirmSignUp confirm_400 "a@b.com" sent
             Scenario.fresh).1 with
    | Return _ =>
        ConfirmEmailForm.error cells' = "" /\
        ConfirmEmailForm.success cells' =
          "Email confirmed successfully! You can now sign in." /\
        ConfirmEmailForm.timers cells' =
          ConfirmEmailForm.timers confirm_cells ++
          [(ConfirmEmailForm.Call_onConfirmed, 2000)]
    | Throw e =>
        ConfirmEmailForm.error cells' = message e /\
        ConfirmEmailForm.success cells' = "" /\
        ConfirmEmailForm.timers cells' = ConfirmEmailForm.timers confirm_cells
    end.
Proof.
  apply (confirmForm_sends_trimmed_code confirm_400 "a@b.com" " 123456 "
           confirm_cells Scenario.fresh).
  reflexivity.
Defined.

Example trim_code : ConfirmEmailForm.trim " 123456 " = "123456".
Proof. reflexivity. Qed.

(** ** Flow handlers together *)

(** X22. The redirect after sign-up and the return after confirmation:
    [handleSignUpSuccess] puts the email into the flow, and then the
    timer of the confirmation form ([handleEmailConfirmed]) clears it
    again.  A signed-out client past the loading screen is on the
    confirmation screen in between and on the sign-in screen after.
    Neither step signs anybody in: the user and the store are untouched
    and nothing is sent. *)
Theorem confirmation_round_trip (email : string) (w : World) :
  let w1 := (App.handleSignUpSuccess email w).2 in
  let w2 := (ConfirmEmailForm.run_timer ConfirmEmailForm.Call_onConfirmed
               w1).2 in
  signUpEmail (flow (state w1)) = email /\
  signUpEmail (flow (state w2)) = "" /\
  showConfirmEmail (flow (state w2)) = false /\
  showSignUp (flow (state w2)) = false /\
  auth (state w2) = auth (state w) /\
  localStorage (state w2) = localStorage (state w) /\
  filter is_fetch (drop (length (trace w)) (trace w2)) = [] /\
  (isLoading (auth (state w)) = false ->
   AuthProvider.isAuthenticated (state w) = false ->
   App.AppContent (state w1) = Some App.ConfirmEmail /\
   App.AppContent (state w2) = Some App.SignIn).
Proof.
  cbv zeta.
  unfold ConfirmEmailForm.run_timer, App.handleSignUpSuccess,
    App.handleEmailConfirmed, bind, App.setSignUpEmail, App.setShowSignUp,
    App.setShowConfirmEmail.
  rewrite !emit_run, !after_after. cbn [snd].
  do 6 (split; [reflexivity|]).
  split.
  { simpl trace. by rewrite <- app_assoc, drop_app_length. }
  intros Hloading Hauth.
  unfold App.AppContent, AuthProvider.isAuthenticated in *. simpl.
  rewrite Hloading, !render_cases.
  by destruct (user (auth (state w))).
Qed.

(** X23. After [handleSignOut] a client past the loading screen is on the
    sign-in form, or on the sign-up form when [showSignUp] was set; it is
    never left on the confirmation screen, on the wizard or on the main
    screen.  The sign-out sends nothing. *)
Theorem handleSignOut_next_screen (w : World) :
  isLoading (auth (state w)) = false ->
  let w' := (App.handleSignOut w).2 in
  App.AppContent (state w') =
    Some (if showSignUp (flow (state w)) then App.SignUp else App.SignIn) /\
  filter is_fetch (drop (length (trace w)) (trace w')) = [].
Proof.
  intros Hloading. cbv zeta. rewrite handleSignOut_run. cbn [snd].
  split; [|simpl trace; by rewrite drop_app_length].
  unfold App.AppContent, AuthProvider.isAuthenticated. simpl.
  by rewrite Hloading, render_cases.
Qed.

Lemma handleSignOut_next_screen_witness :
  let w' := (App.handleSignOut Scenario.signed_in).2 in
  App.AppContent (state w') =
    Some (if showSignUp (flow (state Scenario.signed_in))
          then App.SignUp else App.SignIn) /\
  filter is_fetch (drop (length (trace Scenario.signed_in)) (trace w')) = [].
Proof.
  apply (handleSignOut_next_screen Scenario.signed_in). reflexivity.
Defined.

(** X24. [showSignUp] and [showConfirmEmail] are never both set.  Every
    callback of [AppContent] keeps it so when it is run from the screen
    that has it, and the two callbacks the forms call from a timer keep it
    so from any screen. *)
Theorem flow_keeps_exclusive
    (a : Flow.Action) (screen : App.Screen) (w : World) :
  Flow.exclusive (flow (state w)) ->
  App.AppContent (state w) = Some screen ->
  Flow.wired screen a = true \/ Flow.deferred a = true ->
  (Flow.run a w).1 = Return tt /\
  Flow.exclusive (flow (state (Flow.run a w).2)).
Proof.
  intros Hexclusive Hscreen Hoffered.
  unfold Flow.exclusive in *.
  destruct a; simpl Flow.run.
  - (* SwitchToSignUp *)
    destruct Hoffered as [Hwired|Hdeferred]; [|discriminate].
    destruct screen; try discriminate.
    unfold App.AppContent in Hscreen. rewrite render_cases in Hscreen.
    split; [reflexivity|]. simpl. intros [_ Hconfirm].
    rewrite Hconfirm in Hscreen.
    destruct (isLoading (auth (state w))),
      (AuthProvider.isAuthenticated (state w)),
      (hasProfile (flow (state w))), (showOnboarding (flow (state w)));
      discriminate.
  - split; [reflexivity|]. simpl. intros [? _]. discriminate.
  - split; [reflexivity|]. simpl. intros [? _]. discriminate.
  - split; [reflexivity|]. simpl. intros [_ ?]. discriminate.
  - split; [reflexivity|]. simpl. intros [_ ?]. discriminate.
  - split; [reflexivity|]. simpl. exact Hexclusive.
  - rewrite handleSignOut_run. split; [reflexivity|].
    simpl. intros [_ ?]. discriminate.
  - split; [reflexivity|]. simpl. exact Hexclusive.
Qed.

Lemma flow_keeps_exclusive_witness :
  (Flow.run Flow.SwitchToSignUp Scenario.fresh).1 = Return tt /\
  Flow.exclusive (flow (state (Flow.run Flow.SwitchToSignUp
                                 Scenario.fresh).2)).
Proof.
  apply (flow_keeps_exclusive Flow.SwitchToSignUp App.SignIn Scenario.fresh).
  - intros [Hsignup _]. discriminate.
  - reflexivity.
  - left. reflexivity.
Defined.

(** ** The three-step wizard *)

(** X25. Toggling a sport flips its membership and nobody else's: the
    sport is in the new list exactly when it was not in the old one, every
    other entry is in the new list exactly when it was in the old one, and
    a list without repetitions stays without repetitions.  The day toggle
    is the same function. *)
Theorem handleSportToggle_flips (sport : string) (prev : list string) :
  (sport ∈ OnboardingWizard.handleSportToggle sport prev <-> sport ∉ prev) /\
  (forall other, other <> sport ->
     other ∈ OnboardingWizard.handleSportToggle sport prev <->
     other ∈ prev) /\
  (NoDup prev -> NoDup (OnboardingWizard.handleSportToggle sport prev)) /\
  OnboardingWizard.handleDayToggle sport prev =
    OnboardingWizard.handleSportToggle sport prev.
Proof.
  unfold OnboardingWizard.handleSportToggle, OnboardingWizard.handleDayToggle.
  destruct (decide (sport ∈ prev)) as [Hin|Hout].
  - split; [|split; [|split]].
    + rewrite list_elem_of_filter. (intuition (subst; try congruence; eauto)).
    + intros other Hother. rewrite list_elem_of_filter. (intuition (subst; try congruence; eauto)).
    + apply NoDup_filter.
    + reflexivity.
  - split; [|split; [|split]].
    + rewrite elem_of_app, list_elem_of_singleton. (intuition (subst; try congruence; eauto)).
    + intros other Hother.
      rewrite elem_of_app, list_elem_of_singleton. (intuition (subst; try congruence; eauto)).
    + intros Hnodup. apply NoDup_app. split; [exact Hnodup|].
      split; [|apply NoDup_singleton].
      intros x Hx Hsingle. apply list_elem_of_singleton in Hsingle.
      congruence.
    + reflexivity.
Qed.

(** X26. Toggling twice gives back the same selection: every entry is in
    the list after two toggles exactly when it was before, and when the
    sport was not selected the list itself is back, in the same order.
    Unselecting the only selected sport leaves nothing to send. *)
Theorem handleSportToggle_twice (sport : string) (prev : list string) :
  (forall x,
     x ∈ OnboardingWizard.handleSportToggle sport
           (OnboardingWizard.handleSportToggle sport prev) <->
     x ∈ prev) /\
  (sport ∉ prev ->
   OnboardingWizard.handleSportToggle sport
     (OnboardingWizard.handleSportToggle sport prev) = prev) /\
  OnboardingWizard.nonempty_or_undefined
    (OnboardingWizard.handleSportToggle sport [sport]) = None.
Proof.
  split; [|split].
  - intros x. unfold OnboardingWizard.handleSportToggle.
    destruct (decide (sport ∈ prev)) as [Hin|Hout].
    + destruct (decide (sport ∈ filter (fun s => s ≠ sport) prev))
        as [Hbad|_].
      { apply list_elem_of_filter in Hbad. (intuition (subst; try congruence; eauto)). }
      rewrite elem_of_app, list_elem_of_filter, list_elem_of_singleton.
      destruct (decide (x = sport)) as [->|Hne]; (intuition (subst; try congruence; eauto)).
    + destruct (decide (sport ∈ prev ++ [sport])) as [_|Hbad].
      2: { exfalso. apply Hbad. rewrite elem_of_app, list_elem_of_singleton.
           by right. }
      rewrite list_elem_of_filter, elem_of_app, list_elem_of_singleton.
      (intuition (subst; try congruence; eauto)).
  - intros Hout. unfold OnboardingWizard.handleSportToggle.
    destruct (decide (sport ∈ prev)) as [Hin|_]; [done|].
    destruct (decide (sport ∈ prev ++ [sport])) as [_|Hbad].
    2: { exfalso. apply Hbad. rewrite elem_of_app, list_elem_of_singleton.
         by right. }
    rewrite filter_app, filter_cons_False, filter_nil, app_nil_r by (intuition (subst; try congruence; eauto)).
    clear -Hout. induction prev as [|a prev IH]; [done|].
    rewrite not_elem_of_cons in Hout. destruct Hout as [Hne Hout].
    rewrite filter_cons_True by congruence. by rewrite IH.
  - unfold OnboardingWizard.handleSportToggle.
    destruct (decide (sport ∈ [sport])) as [_|Hbad].
    2: { exfalso. apply Hbad. by apply list_elem_of_singleton. }
    by rewrite filter_cons_False, filter_nil by (intuition (subst; try congruence; eauto)).
Qed.

Lemma click_in_range b step step' :
  (1 <= step <= 3)%Z ->
  OnboardingWizard.click b step = Some step' ->
  (1 <= step' <= 3)%Z.
Proof.
  intros Hrange. unfold OnboardingWizard.click, OnboardingWizard.buttons,
    OnboardingWizard.nextStep, OnboardingWizard.prevStep.
  destruct (Z.eqb_spec step 1) as [->|H1].
  { destruct b; intros Hclick; vm_compute in Hclick; by simplify_eq. }
  destruct (Z.eqb_spec step 2) as [->|H2].
  { destruct b; intros Hclick; vm_compute in Hclick; by simplify_eq. }
  destruct (Z.eqb_spec step 3) as [->|H3].
  { destruct b; intros Hclick; vm_compute in Hclick; by simplify_eq. }
  lia.
Qed.

(** X27. The step counter of the wizard starts at 1 and stays between 1
    and 3 under every sequence of clicks on the buttons the current step
    shows: the first step has no Back, the last no Next, and Submit is
    shown on the last step only. *)
Theorem wizard_steps_stay_in_range
    (bs : list OnboardingWizard.Button) (step' : Z) :
  OnboardingWizard.clicks bs 1 = Some step' ->
  (1 <= step' <= 3)%Z /\
  OnboardingWizard.click OnboardingWizard.Back 1 = None /\
  OnboardingWizard.click OnboardingWizard.Next 3 = None /\
  (forall step, is_Some (OnboardingWizard.click OnboardingWizard.Submit step)
     -> step = 3%Z).
Proof.
  intros Hclicks. split; [|split; [reflexivity|split; [reflexivity|]]].
  - assert (Hgen : forall step,
      (1 <= step <= 3)%Z ->
      OnboardingWizard.clicks bs step = Some step' ->
      (1 <= step' <= 3)%Z).
    { clear Hclicks. induction bs as [|b bs IH]; intros step Hrange; simpl.
      - intros [= <-]. exact Hrange.
      - destruct (OnboardingWizard.click b step) as [next|] eqn:Hclick;
          [|discriminate].
        apply IH. by apply (click_in_range b step). }
    apply (Hgen 1%Z); [lia|exact Hclicks].
  - intros step [next Hclick].
    unfold OnboardingWizard.click, OnboardingWizard.buttons in Hclick.
    destruct (Z.eqb_spec step 1); [vm_compute in Hclick; discriminate|].
    destruct (Z.eqb_spec step 2); [vm_compute in Hclick; discriminate|].
    destruct (Z.eqb_spec step 3); [done|].
    vm_compute in Hclick. discriminate.
Qed.

Lemma wizard_steps_stay_in_range_witness :
  (1 <= 2 <= 3)%Z /\
  OnboardingWizard.click OnboardingWizard.Back 1 = None /\
  OnboardingWizard.click OnboardingWizard.Next 3 = None /\
  (forall step, is_Some (OnboardingWizard.click OnboardingWizard.Submit step)
     -> step = 3%Z).
Proof.
  apply (wizard_steps_stay_in_range
           [OnboardingWizard.Next; OnboardingWizard.Next;
            OnboardingWizard.Back] 2%Z).
  reflexivity.
Defined.

(** ** Authenticated requests and session restore *)

(** X28. The four authenticated calls send their request whatever the
    store holds: with a non-empty access token stored the request carries
    "Bearer <token>", with none or an empty one it is sent without
    [Authorization].  Each call sends that one request and changes no
    state. *)
Theorem authenticated_calls_send_header
    (backend : Backend) (w : World)
    (p : PartialUserProfile) (q : PartialUserPreferences) :
  let h := bearer (readAccessToken (state w)) in
  (h = None <->
   readAccessToken (state w) = None \/ readAccessToken (state w) = Some "") /\
  (forall t, readAccessToken (state w) = Some t -> t <> "" ->
     h = Some ("Bearer " +:+ t)) /\
  (ApiService.getCurrentUser backend w).2 = after w [Fetch (GET_auth_me h)] /\
  (ApiService.autoCreateProfile backend w).2 =
    after w [Fetch (POST_users_profile_auto_create h)] /\
  (ApiService.getUserProfile backend w).2 =
    after w [Fetch (GET_users_profile h)] /\
  (ApiService.completeOnboarding backend p q w).2 =
    after w [Fetch (POST_users_onboarding h p q)] /\
  state (after w [Fetch (GET_auth_me h)]) = state w.
Proof.
  cbv zeta.
  rewrite getCurrentUser_run, autoCreateProfile_run, getUserProfile_run,
    completeOnboarding_run.
  split; [|split; [|by repeat split]].
  - unfold bearer. destruct (readAccessToken (state w)) as [[|c t]|]; simpl.
    + split; [by right|done].
    + split; [discriminate|]. intros [?|?]; discriminate.
    + split; [by left|done].
  - intros t Htoken Hne. rewrite Htoken. unfold bearer.
    by destruct t.
Qed.

(** X29. Session restore: with a usable access token stored and the
    identity fetch answered, the mount effect sets the user with that one
    request, carrying the stored token, and leaves both stored tokens as
    they were; no refresh is attempted. *)
Theorem initializeAuth_restores_session
    (backend : Backend) (w w1 : World) (t : string) (userInfo : UserInfo) :
  readAccessToken (state w) = Some t ->
  truthy t = true ->
  ApiService.getCurrentUser backend w = (Return userInfo, w1) ->
  exists w',
    AuthProvider.initializeAuth backend w = (Return tt, w') /\
    user (auth (state w')) = Some userInfo /\
    isLoading (auth (state w')) = false /\
    localStorage (state w') = localStorage (state w) /\
    trace w' = trace w ++
      [Fetch (GET_auth_me (Some ("Bearer " +:+ t)));
       SetUser (Some userInfo); SetIsLoading false].
Proof.
  intros Htoken Htruthy Hme.
  rewrite getCurrentUser_run, Htoken in Hme. unfold bearer in Hme.
  rewrite Htruthy in Hme. injection Hme as Hsettle _.
  rewrite initializeAuth_cases, Htoken, Htruthy. cbv zeta.
  cbn [body_of] in *. rewrite Hsettle.
  eexists. split; [reflexivity|]. by repeat split.
Qed.

Lemma initializeAuth_restores_session_witness :
  exists w',
    AuthProvider.initializeAuth Scenario.all_ok Scenario.signed_in =
      (Return tt, w') /\
    user (auth (state w')) = Some Scenario.alice /\
    isLoading (auth (state w')) = false /\
    localStorage (state w') = localStorage (state Scenario.signed_in) /\
    trace w' = trace Scenario.signed_in ++
      [Fetch (GET_auth_me (Some ("Bearer " +:+ "at-0")));
       SetUser (Some Scenario.alice); SetIsLoading false].
Proof.
  eapply (initializeAuth_restores_session Scenario.all_ok Scenario.signed_in
            _ "at-0" Scenario.alice);
    reflexivity.
Defined.
